(** * Training orchestration of tutorial_pytorch

    A shallow embedding of the three entry points

    - [2-classification_anime/py/main.py]      (module [Anime]),
    - [2_classification_food101_dp/py/main.py] (module [Food101]),
    - [3-distribution_training/py/main.py]     (module [Distributed]),

    as programs in a small monad that threads the set of existing
    directories, may raise a Python exception and logs every call the
    orchestration makes into the framework. *)

From Stdlib Require Import Ascii String.
From Stdlib Require Import ZArith List Bool Lia Arith PeanoNat.
Import ListNotations.

Local Open Scope Z_scope.

(** ** Python values *)

Module Py.

(** [range(lo, hi)]: the integers [lo], [lo+1], ..., [hi-1]; empty when
    [hi <= lo]. *)
Definition range (lo hi : Z) : list Z :=
  map (fun i => lo + Z.of_nat i) (seq 0 (Z.to_nat (hi - lo))).

(** [max(a, b)] keeps its first argument unless the second is strictly
    greater. *)
Definition max (a b : Z) : Z := if b >? a then b else a.

(** [int(a / b)]: true division followed by truncation toward zero.  The
    quotient of two integers below 2^53 in magnitude is rounded correctly
    by the float division and truncates to [Z.quot a b]; a zero divisor
    raises [ZeroDivisionError], here [None]. *)
Definition int_truediv (a b : Z) : option Z :=
  if b =? 0 then None else Some (Z.quot a b).

(** [int(c * n)] for the literal fractions 0.5 and 0.75.  Both are exact
    in binary, and so is the float product for [n] below 2^51 in
    magnitude, where [int] of it is the quotient truncated toward zero. *)
Definition int_half (n : Z) : Z := Z.quot n 2.
Definition int_three_quarters (n : Z) : Z := Z.quot (3 * n) 4.

End Py.

(** ** torch.utils.data: batching

    [DataLoader] with a batch size groups the indices its sampler yields
    the way [BatchSampler.__iter__] does: an index is appended to the
    current batch, a batch that reaches [batch_size] is yielded and a new
    one started, and what is left at the end is yielded unless
    [drop_last]. *)

Module Loader.

Section Batching.
Context {A : Type}.

Fixpoint batch_iter (batch_size : nat) (drop_last : bool)
         (sampler : list A) (batch : list A) : list (list A) :=
  match sampler with
  | [] =>
      if (0 <? length batch)%nat && negb drop_last then [batch] else []
  | idx :: rest =>
      let batch' := batch ++ [idx] in
      if (length batch' =? batch_size)%nat
      then batch' :: batch_iter batch_size drop_last rest []
      else batch_iter batch_size drop_last rest batch'
  end.

Record DataLoader := {
  dl_sampler : list A;
  dl_batch_size : nat;
  dl_drop_last : bool
}.

Definition batches (dl : DataLoader) : list (list A) :=
  batch_iter (dl_batch_size dl) (dl_drop_last dl) (dl_sampler dl) [].

(** [len(loader)]. *)
Definition len (dl : DataLoader) : nat :=
  let n := length (dl_sampler dl) in
  if dl_drop_last dl then n / dl_batch_size dl
  else (n + dl_batch_size dl - 1) / dl_batch_size dl.

End Batching.

Arguments DataLoader : clear implicits.

(** The sizes of the batches one pass over [n] samples yields. *)
Definition sizes (B : nat) (drop_last : bool) (n : nat) : list nat :=
  repeat B (n / B) ++
  (if (0 <? n mod B)%nat && negb drop_last then [n mod B]%nat else []).

End Loader.

(** ** Configuration, host and framework objects *)

(** The namespace [opt()] returns.  [distributed], [rank], [world_size]
    and [gpu] are the attributes [init_distributed_mode] sets;
    [start_epoch], [batch_size] and [workers] are reassigned by [main]. *)
Record Args := {
  seed : Z;
  apex : bool;
  apex_opt_level : string;
  evaluate : bool;
  restart : bool;
  resume : string;
  epochs : Z;
  start_epoch : Z;
  batch_size : Z;
  workers : Z;
  lr_step_size : Z;
  path2weight : string;
  exp_name : string;
  distributed : bool;
  rank : nat;
  world_size : nat;
  gpu : nat
}.

Definition set_start_epoch (e : Z) (a : Args) : Args :=
  {| seed := seed a; apex := apex a; apex_opt_level := apex_opt_level a;
     evaluate := evaluate a; restart := restart a; resume := resume a;
     epochs := epochs a; start_epoch := e; batch_size := batch_size a;
     workers := workers a; lr_step_size := lr_step_size a;
     path2weight := path2weight a; exp_name := exp_name a;
     distributed := distributed a; rank := rank a;
     world_size := world_size a; gpu := gpu a |}.

Definition set_batch_size (b : Z) (a : Args) : Args :=
  {| seed := seed a; apex := apex a; apex_opt_level := apex_opt_level a;
     evaluate := evaluate a; restart := restart a; resume := resume a;
     epochs := epochs a; start_epoch := start_epoch a; batch_size := b;
     workers := workers a; lr_step_size := lr_step_size a;
     path2weight := path2weight a; exp_name := exp_name a;
     distributed := distributed a; rank := rank a;
     world_size := world_size a; gpu := gpu a |}.

Definition set_workers (w : Z) (a : Args) : Args :=
  {| seed := seed a; apex := apex a; apex_opt_level := apex_opt_level a;
     evaluate := evaluate a; restart := restart a; resume := resume a;
     epochs := epochs a; start_epoch := start_epoch a;
     batch_size := batch_size a; workers := w;
     lr_step_size := lr_step_size a;
     path2weight := path2weight a; exp_name := exp_name a;
     distributed := distributed a; rank := rank a;
     world_size := world_size a; gpu := gpu a |}.

Definition set_distributed (d : bool) (r ws g : nat) (a : Args) : Args :=
  {| seed := seed a; apex := apex a; apex_opt_level := apex_opt_level a;
     evaluate := evaluate a; restart := restart a; resume := resume a;
     epochs := epochs a; start_epoch := start_epoch a;
     batch_size := batch_size a; workers := workers a;
     lr_step_size := lr_step_size a;
     path2weight := path2weight a; exp_name := exp_name a;
     distributed := d; rank := r; world_size := ws; gpu := g |}.

(** How the process was started.  A process launched as a member of a
    group is bound to one of its node's GPUs, so its node has at least
    one: [Launched r n g] is rank [r] of [n] on a node with [g] GPUs. *)
Inductive Host :=
| SingleProcess (device_count : nat)
| Launched (host_rank host_world_size : nat) (gpus : positive).

Definition cuda_device_count (h : Host) : Z :=
  match h with
  | SingleProcess n => Z.of_nat n
  | Launched _ _ g => Z.pos g
  end.

(** [torch.distributed.get_rank()], 0 outside a group. *)
Definition get_rank (h : Host) : nat :=
  match h with
  | SingleProcess _ => 0%nat
  | Launched r _ _ => r
  end.

(** What [torch.load] reads from the resume checkpoint: the scalars; the
    three state dicts are opaque. *)
Record Checkpoint := {
  ck_epoch : Z;
  ck_best_acc : Z
}.

(** Everything outside the program that a run depends on.  [val_acc e]
    is the accuracy the validation pass of epoch [e] measures (key 0 for
    the single pass of evaluate-only mode): it is decided by the weights,
    which the orchestration never inspects.  Accuracies are compared and
    maximised only, and are taken in [Z].  [readable p] tells whether the
    file [p] is there, and holds what the program loads from it, when the
    run opens it; [saved_checkpoint] is what the resume checkpoint file
    holds when it is. *)
Record Env := {
  amp_available : bool;
  host : Host;
  train_set : list nat;
  val_set : list nat;
  val_acc : Z -> Z;
  saved_checkpoint : Checkpoint;
  readable : string -> bool
}.

(** A module is the network itself, the network patched by
    [amp.initialize], or a parallel wrapper around a module. *)
Inductive nnmodule :=
| Net
| Amp (m : nnmodule)
| DataParallel (m : nnmodule)
| DistributedDataParallel (m : nnmodule).

(** [model.module] of a wrapper. *)
Definition module_of (m : nnmodule) : nnmodule :=
  match m with
  | DataParallel m' | DistributedDataParallel m' => m'
  | _ => m
  end.

Definition is_unwrapped (m : nnmodule) : bool :=
  match m with
  | DataParallel _ | DistributedDataParallel _ => false
  | _ => true
  end.

Inductive optimizer :=
| SGD
| AmpOptimizer (o : optimizer).

Inductive scheduler :=
| MultiStepLR (milestone1 milestone2 : Z)
| StepLR (step_size : Z).

(** A file path ['<dir>/<file>']. *)
Record Path := { pdir : string; pfile : string }.

Definition path_str (p : Path) : string :=
  (pdir p ++ "/" ++ pfile p)%string.

(** What [torch.save] is given: a state dict of a module, or the resume
    bundle. *)
Inductive payload :=
| StateDict (m : nnmodule)
| Bundle (model : nnmodule) (opt : optimizer) (sched : scheduler)
         (epoch : Z) (best_acc : Z) (args : Args).

Inductive target :=
| ModelState (m : nnmodule)
| OptimizerState
| SchedulerState.

(** The calls a run makes, in order. *)
Inductive event :=
| SeedEverything (s : Z)
| GetWorkerInit
| Mkdir (d : string)
| InitProcessGroup (r n : nat)
| TorchDevice
| SummaryWriter
| NewDataLoader (training : bool) (batch_size workers : Z) (drop_last : bool)
| NewModel
| NewCriterion
| NewOptimizer
| TorchLoad (path : string)
| LoadStateDict (t : target)
| AmpInitialize
| NewDataParallel
| NewDistributedDataParallel
| NewScheduler (s : scheduler)
| SetEpoch (e : Z)
| TrainPass (epoch iteration : Z) (batch_sizes : list nat)
| ValidatePass (iteration : Z) (batch_sizes : list nat)
| SchedulerStep
| TorchSave (p : Path) (obj : payload)
| WriterClose.

Inductive exn :=
| RuntimeError
| SystemExit
| ZeroDivisionError
| FileExistsError (d : string)
| FileNotFoundError (d : string).

(** ** The monad of a run *)

Inductive result (A : Type) :=
| Ret (a : A)
| Raise (e : exn).
Arguments Ret {A} a.
Arguments Raise {A} e.

(** The directories that exist, as far as weights are written to them:
    the log directory [SummaryWriter] makes for itself is left out. *)
Definition FS := list string.

Definition M (A : Type) : Type := FS -> result A * FS * list event.

Definition ret {A} (a : A) : M A := fun fs => (Ret a, fs, []).

Definition bind {A B} (m : M A) (k : A -> M B) : M B :=
  fun fs =>
    match m fs with
    | (Ret a, fs1, l1) =>
        match k a fs1 with
        | (r, fs2, l2) => (r, fs2, l1 ++ l2)
        end
    | (Raise e, fs1, l1) => (Raise e, fs1, l1)
    end.

Definition raise {A} (e : exn) : M A := fun fs => (Raise e, fs, []).

Definition emit (ev : event) : M unit := fun fs => (Ret tt, fs, [ev]).

Declare Scope run_scope.
Delimit Scope run_scope with run.
Notation "x <- c ;; k" := (bind c (fun x => k))
  (at level 100, c at next level, right associativity) : run_scope.
Notation "' p <- c ;; k" := (bind c (fun x => let p := x in k))
  (at level 100, p pattern, c at next level, right associativity) : run_scope.
Notation "c ;; k" := (bind c (fun _ => k))
  (at level 100, right associativity) : run_scope.
Local Open Scope run_scope.

Definition when (b : bool) (m : M unit) : M unit :=
  if b then m else ret tt.

Fixpoint for_each {S} (xs : list Z) (body : Z -> S -> M S) (s : S) : M S :=
  match xs with
  | [] => ret s
  | x :: xs' => s' <- body x s ;; for_each xs' body s'
  end.

Definition outcome {A} (r : result A * FS * list event) : result A :=
  fst (fst r).
Definition dirs_after {A} (r : result A * FS * list event) : FS :=
  snd (fst r).
Definition log {A} (r : result A * FS * list event) : list event :=
  snd r.

(** ** The operating system and the framework

    A call is followed where it returns.  What stops a run here is the
    mixed-precision gate, a directory or a file that is missing, and
    [sys.exit()]; when the constructors of the framework take their
    arguments is stated apart ([loader_accepts] and what follows it,
    below), as hypotheses of the properties that need a run to get
    somewhere. *)

Definition dir_exists (d : string) (fs : FS) : bool :=
  existsb (String.eqb d) fs.

Definition os_path_exists (d : string) : M bool :=
  fun fs => (Ret (dir_exists d fs), fs, []).

Definition os_mkdir (d : string) : M unit :=
  fun fs =>
    if dir_exists d fs then (Raise (FileExistsError d), fs, [])
    else (Ret tt, d :: fs, [Mkdir d]).

(** The directories above [d]: what stands before each ['/'] of it. *)
Fixpoint ancestors_from (before rest : string) : list string :=
  match rest with
  | EmptyString => []
  | String c rest' =>
      let here := (before ++ String c EmptyString)%string in
      if Ascii.eqb c "/"%char
      then (if String.eqb before "" then [] else [before])
           ++ ancestors_from here rest'
      else ancestors_from here rest'
  end.

Definition ancestors (d : string) : list string := ancestors_from "" d.

(** Creates, in turn, the directories of [ds] that are missing. *)
Fixpoint make_missing (ds : list string) (fs : FS) : FS * list event :=
  match ds with
  | [] => (fs, [])
  | d :: ds' =>
      if dir_exists d fs then make_missing ds' fs
      else (fst (make_missing ds' (d :: fs)),
            Mkdir d :: snd (make_missing ds' (d :: fs)))
  end.

(** [os.makedirs(d, exist_ok=True)]: [d] and the directories above it. *)
Definition os_makedirs (d : string) : M unit :=
  fun fs =>
    (Ret tt, fst (make_missing (ancestors d ++ [d]) fs),
     snd (make_missing (ancestors d ++ [d]) fs)).

(** [torch.save(obj, path)] opens the file for writing, which fails when
    its directory is missing.  The error is the [FileNotFoundError] of
    [open]; later releases of the framework check the directory first
    and raise a [RuntimeError] that names it. *)
Definition torch_save (obj : payload) (p : Path) : M unit :=
  fun fs =>
    if dir_exists (pdir p) fs then (Ret tt, fs, [TorchSave p obj])
    else (Raise (FileNotFoundError (pdir p)), fs, []).

(** [torch.load(path)] opens the file, which raises [FileNotFoundError]
    when it is missing, and then reads it: [open_for_reading] is the
    first step and [torch_load] the second. *)
Definition open_for_reading (env : Env) (path : string) : M unit :=
  if readable env path then ret tt else raise (FileNotFoundError path).

Definition torch_load (path : string) : M unit := emit (TorchLoad path).

Definition load_state_dict (t : target) : M unit := emit (LoadStateDict t).

Definition seed_everything (s : Z) : M unit := emit (SeedEverything s).

Definition get_worker_init : M unit := emit GetWorkerInit.

Definition torch_device : M unit := emit TorchDevice.

(** [SummaryWriter(log_dir=...)]; the log directory it makes for itself
    is not followed. *)
Definition summary_writer : M unit := emit SummaryWriter.

Definition new_model : M nnmodule := emit NewModel ;; ret Net.

Definition new_criterion : M unit := emit NewCriterion.

Definition new_sgd : M optimizer := emit NewOptimizer ;; ret SGD.

Definition amp_initialize (m : nnmodule) (o : optimizer)
  : M (nnmodule * optimizer) :=
  emit AmpInitialize ;; ret (Amp m, AmpOptimizer o).

Definition data_parallel (m : nnmodule) : M nnmodule :=
  emit NewDataParallel ;; ret (DataParallel m).

Definition distributed_data_parallel (m : nnmodule) : M nnmodule :=
  emit NewDistributedDataParallel ;; ret (DistributedDataParallel m).

Definition new_scheduler (s : scheduler) : M scheduler :=
  emit (NewScheduler s) ;; ret s.

Definition scheduler_step : M unit := emit SchedulerStep.

Definition writer_close : M unit := emit WriterClose.

Definition sys_exit {A} : M A := raise SystemExit.

(** [DataLoader(dataset, batch_size, sampler, num_workers, drop_last)]
    over the indices its sampler yields.  The constructor is followed
    where it accepts its arguments; when it does is [loader_accepts]
    below. *)
Definition loader_of (sampler : list nat) (batch_size : Z) (drop_last : bool)
  : Loader.DataLoader nat :=
  {| Loader.dl_sampler := sampler;
     Loader.dl_batch_size := Z.to_nat batch_size;
     Loader.dl_drop_last := drop_last |}.

Definition data_loader (training : bool) (sampler : list nat)
           (batch_size workers : Z) (drop_last : bool)
  : M (Loader.DataLoader nat) :=
  emit (NewDataLoader training batch_size workers drop_last) ;;
  ret (loader_of sampler batch_size drop_last).

(** The batch sizes one pass over a loader meets. *)
Definition pass_sizes (loader : Loader.DataLoader nat) : list nat :=
  map (@length nat) (Loader.batches loader).

(** Modelled from the spec: [train_val.train], which is not among the
    sources.  One training pass iterates all batches of the loader once
    and takes one optimizer step per batch. *)
Definition train (loader : Loader.DataLoader nat) (epoch iteration : Z)
  : M unit :=
  emit (TrainPass epoch iteration (pass_sizes loader)).

(** Modelled from the spec: [train_val.validate], which is not among the
    sources.  One validation pass iterates all batches of the loader
    once, with gradients disabled, and returns the accuracy. *)
Definition validate (env : Env) (loader : Loader.DataLoader nat)
           (epoch iteration : Z) : M Z :=
  emit (ValidatePass iteration (pass_sizes loader)) ;;
  ret (val_acc env epoch).

(** The optimizer steps a logged call takes. *)
Definition optimizer_steps_of (ev : event) : nat :=
  match ev with
  | TrainPass _ _ bs => length bs
  | _ => 0%nat
  end.

Definition optimizer_steps (l : list event) : nat :=
  list_sum (map optimizer_steps_of l).

(** The mixed-precision gate every entry point opens with:
    [if args.apex and amp is None: raise RuntimeError(...)]. *)
Definition check_apex (args : Args) (env : Env) : M unit :=
  when (apex args && negb (amp_available env)) (raise RuntimeError).

(** [if args.apex: model, optimizer = amp.initialize(model, optimizer, ...)]. *)
Definition precision_wrap (args : Args) (model : nnmodule) (opt : optimizer)
  : M (nnmodule * optimizer) :=
  if apex args then amp_initialize model opt else ret (model, opt).

(** [if not os.path.exists('weight'): os.mkdir('weight')]. *)
Definition ensure_weight_dir : M unit :=
  ex <- os_path_exists "weight" ;;
  when (negb ex) (os_mkdir "weight").

(** ** 2-classification_anime/py/main.py *)

Module Anime.

Record RunState := {
  iteration : Z;
  best_acc : Z;
  best_acc1 : option Z
}.

Definition saved_weight : Path :=
  {| pdir := "weight"; pfile := "AnimeFace_resnet18_best.pth" |}.

(** The body of [for epoch in range(1, args.epochs + 1)]. *)
Definition epoch_body (env : Env) (model_without_ddp : nnmodule)
           (train_loader val_loader : Loader.DataLoader nat)
           (epoch : Z) (st : RunState) : M RunState :=
  train train_loader epoch (iteration st) ;;
  let iteration' := iteration st + Z.of_nat (Loader.len train_loader) in
  acc <- validate env val_loader epoch iteration' ;;
  scheduler_step ;;
  let is_best := acc >? best_acc st in
  let best_acc1' := Py.max acc (best_acc st) in
  when is_best (torch_save (StateDict model_without_ddp) saved_weight) ;;
  ret {| iteration := iteration';
         best_acc := best_acc st;
         best_acc1 := Some best_acc1' |}.

Definition main (args : Args) (env : Env) : M unit :=
  seed_everything (seed args) ;;
  check_apex args env ;;
  ensure_weight_dir ;;
  torch_device ;;
  let multigpu := cuda_device_count (host env) >? 1 in
  summary_writer ;;
  train_loader <- data_loader true (train_set env)
                    (batch_size args) (workers args) true ;;
  val_loader <- data_loader false (val_set env)
                    (batch_size args) (workers args) false ;;
  model <- new_model ;;
  new_criterion ;;
  opt <- new_sgd ;;
  let iteration0 := 0 in
  if evaluate args then
    open_for_reading env (resume args) ;;
    torch_load (resume args) ;;
    load_state_dict (ModelState model) ;;
    model <- (if multigpu then data_parallel model else ret model) ;;
    _ <- validate env val_loader 0 iteration0 ;;
    sys_exit
  else
    '(model, opt) <- precision_wrap args model opt ;;
    '(model, model_without_ddp) <-
       (if multigpu
        then model <- data_parallel model ;; ret (model, module_of model)
        else ret (model, model)) ;;
    _ <- new_scheduler (MultiStepLR (Py.int_half (epochs args))
                                    (Py.int_three_quarters (epochs args))) ;;
    _ <- for_each (Py.range 1 (epochs args + 1))
           (epoch_body env model_without_ddp train_loader val_loader)
           {| iteration := iteration0; best_acc := 0; best_acc1 := None |} ;;
    writer_close.

End Anime.

(** ** 2_classification_food101_dp/py/main.py *)

Module Food101.

Record RunState := {
  iteration : Z;
  best_acc : Z
}.

(** ['{}/{}_mobilenetv2_best.pth'.format(args.path2weight, args.exp_name)] *)
Definition weight_name (args : Args) : Path :=
  {| pdir := path2weight args;
     pfile := (exp_name args ++ "_mobilenetv2_best.pth")%string |}.

(** ['weight/{}_checkpoint.pth'.format(args.exp_name)] *)
Definition checkpoint_name (args : Args) : Path :=
  {| pdir := "weight";
     pfile := (exp_name args ++ "_checkpoint.pth")%string |}.

(** [load_data]: each loader is given [get_worker_init(args.seed)]. *)
Definition load_data (args : Args) (env : Env)
  : M (Loader.DataLoader nat * Loader.DataLoader nat) :=
  get_worker_init ;;
  train_loader <- data_loader true (train_set env)
                    (batch_size args) (workers args) true ;;
  get_worker_init ;;
  val_loader <- data_loader false (val_set env)
                    (batch_size args) (workers args) false ;;
  ret (train_loader, val_loader).

(** The block under [if args.restart:], once the checkpoint file is
    open; it returns the reassigned [args], [best_acc] and
    [iteration]. *)
Definition resume_run (args : Args) (env : Env) (model_without_dp : nnmodule)
           (train_loader : Loader.DataLoader nat) : M (Args * RunState) :=
  torch_load (path_str (checkpoint_name args)) ;;
  let checkpoint := saved_checkpoint env in
  load_state_dict (ModelState model_without_dp) ;;
  load_state_dict OptimizerState ;;
  load_state_dict SchedulerState ;;
  ret (set_start_epoch (ck_epoch checkpoint + 1) args,
       {| best_acc := ck_best_acc checkpoint;
          iteration := epochs args * Z.of_nat (Loader.len train_loader) |}).

(** The body of [for epoch in range(args.start_epoch, args.epochs + 1)]. *)
Definition epoch_body (args : Args) (env : Env)
           (model_without_dp : nnmodule) (opt : optimizer) (sched : scheduler)
           (train_loader val_loader : Loader.DataLoader nat)
           (epoch : Z) (st : RunState) : M RunState :=
  train train_loader epoch (iteration st) ;;
  let iteration' := iteration st + Z.of_nat (Loader.len train_loader) in
  acc <- validate env val_loader epoch iteration' ;;
  scheduler_step ;;
  let is_best := acc >? best_acc st in
  let best_acc' := Py.max acc (best_acc st) in
  when is_best
    (torch_save (StateDict model_without_dp) (weight_name args) ;;
     torch_save (Bundle model_without_dp opt sched epoch best_acc' args)
                (checkpoint_name args)) ;;
  ret {| iteration := iteration'; best_acc := best_acc' |}.

Definition main (args : Args) (env : Env) : M unit :=
  seed_everything (seed args) ;;
  check_apex args env ;;
  os_makedirs (path2weight args) ;;
  summary_writer ;;
  torch_device ;;
  let multigpu := cuda_device_count (host env) >? 1 in
  '(train_loader, val_loader) <- load_data args env ;;
  model <- new_model ;;
  new_criterion ;;
  opt <- new_sgd ;;
  let iteration0 := 0 in
  if evaluate args then
    open_for_reading env (path_str (weight_name args)) ;;
    torch_load (path_str (weight_name args)) ;;
    load_state_dict (ModelState model) ;;
    model <- (if multigpu then data_parallel model else ret model) ;;
    _ <- validate env val_loader 0 iteration0 ;;
    sys_exit
  else
    '(model, opt) <- precision_wrap args model opt ;;
    '(model, model_without_dp) <-
       (if multigpu
        then model <- data_parallel model ;; ret (model, module_of model)
        else ret (model, model)) ;;
    sched <- new_scheduler (StepLR (lr_step_size args)) ;;
    '(args, st) <-
       (if restart args
        then open_for_reading env (path_str (checkpoint_name args)) ;;
             resume_run args env model_without_dp train_loader
        else ret (args, {| iteration := iteration0; best_acc := 0 |})) ;;
    _ <- for_each (Py.range (start_epoch args) (epochs args + 1))
           (epoch_body args env model_without_dp opt sched
                       train_loader val_loader)
           st ;;
    writer_close.

End Food101.

(** ** 3-distribution_training/py/main.py *)

Module Distributed.

Record RunState := {
  iteration : Z;
  best_acc : Z;
  best_acc1 : option Z
}.

Definition saved_weight : Path :=
  {| pdir := "weight"; pfile := "AnimeFace_resnet18_best.pth" |}.

(** Modelled from the spec: [utils.init_distributed_mode], which is not
    among the sources.  Without a multi-process environment it sets
    [distributed] to false, rank 0 and world size 1; in one it joins the
    group, binds the process to its device and sets [distributed]. *)
Definition init_distributed_mode (args : Args) (env : Env) : M Args :=
  match host env with
  | SingleProcess _ => ret (set_distributed false 0 1 0 args)
  | Launched r n g =>
      emit (InitProcessGroup r n) ;;
      ret (set_distributed true r n (r mod Pos.to_nat g) args)
  end.

(** Modelled from the spec: [utils.save_on_master], which is not among
    the sources.  Only the main rank, rank 0, calls [torch.save]. *)
Definition is_main_process (env : Env) : bool :=
  (get_rank (host env) =? 0)%nat.

Definition save_on_master (env : Env) (obj : payload) (p : Path) : M unit :=
  if is_main_process env then torch_save obj p else ret tt.

(** [DistributedSampler]: the index list is padded to a multiple of the
    world size, with its own first indices and over again where it is
    shorter than the padding, and rank [r] takes every [n]-th index from
    position [r]. *)
Definition distributed_sampler (h : Host) (xs : list nat) : list nat :=
  match h with
  | SingleProcess _ => xs
  | Launched r n _ =>
      let total := ((length xs + n - 1) / n * n)%nat in
      let padding := (total - length xs)%nat in
      let padded :=
        if (padding <=? length xs)%nat
        then xs ++ firstn padding xs
        else xs ++ firstn padding
                     (concat (repeat xs ((padding + length xs - 1)
                                         / length xs)%nat)) in
      map snd (filter (fun p => (fst p mod n =? r)%nat)
                      (combine (seq 0 total) padded))
  end.

Definition set_epoch (e : Z) : M unit := emit (SetEpoch e).

(** The samplers [load_data] returns, as the indices they yield. *)
Definition load_data (args : Args) (env : Env) : list nat * list nat :=
  if distributed args
  then (distributed_sampler (host env) (train_set env),
        distributed_sampler (host env) (val_set env))
  else (train_set env, val_set env).

(** [if args.distributed:] the per-process batch size and worker count. *)
Definition per_process (args : Args) (ngpus_per_node : Z) : M Args :=
  if distributed args then
    match Py.int_truediv (batch_size args) ngpus_per_node with
    | None => raise ZeroDivisionError
    | Some b =>
        let args := set_batch_size b args in
        match Py.int_truediv (workers args + ngpus_per_node - 1)
                             ngpus_per_node with
        | None => raise ZeroDivisionError
        | Some w => ret (set_workers w args)
        end
    end
  else ret args.

(** The body of [for epoch in range(1, args.epochs + 1)]. *)
Definition epoch_body (args : Args) (env : Env) (model_without_ddp : nnmodule)
           (train_loader val_loader : Loader.DataLoader nat)
           (epoch : Z) (st : RunState) : M RunState :=
  when (distributed args) (set_epoch epoch) ;;
  train train_loader epoch (iteration st) ;;
  let iteration' := iteration st + Z.of_nat (Loader.len train_loader) in
  acc <- validate env val_loader epoch iteration' ;;
  scheduler_step ;;
  let is_best := acc >? best_acc st in
  let best_acc1' := Py.max acc (best_acc st) in
  when is_best
    (save_on_master env (StateDict model_without_ddp) saved_weight) ;;
  ret {| iteration := iteration';
         best_acc := best_acc st;
         best_acc1 := Some best_acc1' |}.

Definition main (args : Args) (env : Env) : M unit :=
  seed_everything (seed args) ;;
  get_worker_init ;;
  check_apex args env ;;
  ensure_weight_dir ;;
  args <- init_distributed_mode args env ;;
  torch_device ;;
  let ngpus_per_node := cuda_device_count (host env) in
  summary_writer ;;
  args <- per_process args ngpus_per_node ;;
  let '(train_sampler, val_sampler) := load_data args env in
  train_loader <- data_loader true train_sampler
                    (batch_size args) (workers args) true ;;
  val_loader <- data_loader false val_sampler
                    (batch_size args) (workers args) false ;;
  model <- new_model ;;
  new_criterion ;;
  opt <- new_sgd ;;
  let iteration0 := 0 in
  '(model, opt) <- precision_wrap args model opt ;;
  '(model, model_without_ddp) <-
     (if distributed args
      then model <- distributed_data_parallel model ;;
           ret (model, module_of model)
      else ret (model, model)) ;;
  if evaluate args then
    open_for_reading env (resume args) ;;
    torch_load (resume args) ;;
    load_state_dict (ModelState model_without_ddp) ;;
    _ <- validate env val_loader 0 iteration0 ;;
    ret tt
  else
    _ <- new_scheduler (MultiStepLR (Py.int_half (epochs args))
                                    (Py.int_three_quarters (epochs args))) ;;
    _ <- for_each (Py.range 1 (epochs args + 1))
           (epoch_body args env model_without_ddp train_loader val_loader)
           {| iteration := iteration0; best_acc := 0; best_acc1 := None |} ;;
    writer_close.

(** The runs of the [n] processes of a group: rank [r] runs [main] on
    its own host view and meets its own validation shard. *)
Definition rank_env (env : nat -> Env) (n : nat) (g : positive) (r : nat)
  : Env :=
  {| amp_available := amp_available (env r);
     host := Launched r n g;
     train_set := train_set (env r);
     val_set := val_set (env r);
     val_acc := val_acc (env r);
     saved_checkpoint := saved_checkpoint (env r);
     readable := readable (env r) |}.

End Distributed.

(** * The runs, phase by phase

    What a run has done before, in and after its epoch loop. *)

(** The directories and the log after [ensure_weight_dir]. *)
Definition weight_dirs (fs : FS) : FS :=
  if dir_exists "weight" fs then fs else "weight"%string :: fs.

Definition weight_log (fs : FS) : list event :=
  if dir_exists "weight" fs then [] else [Mkdir "weight"].

Definition finish {S} (r : result S) : result unit :=
  match r with Ret _ => Ret tt | Raise e => Raise e end.

Definition closing {S} (r : result S) : list event :=
  match r with Ret _ => [WriterClose] | Raise _ => [] end.

(** The three calls every round opens with. *)
Definition passes (tl vl : Loader.DataLoader nat) (e it : Z) : list event :=
  [TrainPass e it (pass_sizes tl);
   ValidatePass (it + Z.of_nat (Loader.len tl)) (pass_sizes vl);
   SchedulerStep].

Module AnimeRun.
Import Anime.

Section Run.
Variables (args : Args) (env : Env) (fs : FS).

Definition multigpu : bool := cuda_device_count (host env) >? 1.
Definition train_loader := loader_of (train_set env) (batch_size args) true.
Definition val_loader := loader_of (val_set env) (batch_size args) false.
Definition model : nnmodule := if apex args then Amp Net else Net.

Definition setup : list event :=
  SeedEverything (seed args) :: weight_log fs ++
  [TorchDevice; SummaryWriter;
   NewDataLoader true (batch_size args) (workers args) true;
   NewDataLoader false (batch_size args) (workers args) false;
   NewModel; NewCriterion; NewOptimizer].

Definition wrapping : list event :=
  (if apex args then [AmpInitialize] else []) ++
  (if multigpu then [NewDataParallel] else []) ++
  [NewScheduler (MultiStepLR (Py.int_half (epochs args))
                             (Py.int_three_quarters (epochs args)))].

Definition loop :=
  for_each (Py.range 1 (epochs args + 1))
    (epoch_body env model train_loader val_loader)
    {| iteration := 0; best_acc := 0; best_acc1 := None |}
    (weight_dirs fs).

End Run.
End AnimeRun.

Module Food101Run.
Import Food101.

Section Run.
Variables (args : Args) (env : Env) (fs : FS).

Definition multigpu : bool := cuda_device_count (host env) >? 1.
Definition train_loader := loader_of (train_set env) (batch_size args) true.
Definition val_loader := loader_of (val_set env) (batch_size args) false.
Definition model : nnmodule := if apex args then Amp Net else Net.
Definition opt : optimizer := if apex args then AmpOptimizer SGD else SGD.
Definition sched : scheduler := StepLR (lr_step_size args).

Definition out_dirs : FS :=
  fst (make_missing (ancestors (path2weight args) ++ [path2weight args]) fs).

Definition out_log : list event :=
  snd (make_missing (ancestors (path2weight args) ++ [path2weight args]) fs).

Definition setup : list event :=
  SeedEverything (seed args) :: out_log ++
  [SummaryWriter; TorchDevice;
   GetWorkerInit;
   NewDataLoader true (batch_size args) (workers args) true;
   GetWorkerInit;
   NewDataLoader false (batch_size args) (workers args) false;
   NewModel; NewCriterion; NewOptimizer].

Definition wrapping : list event :=
  (if apex args then [AmpInitialize] else []) ++
  (if multigpu then [NewDataParallel] else []) ++
  [NewScheduler sched].

Definition resumed_args : Args :=
  if restart args
  then set_start_epoch (ck_epoch (saved_checkpoint env) + 1) args
  else args.

Definition initial : RunState :=
  if restart args
  then {| iteration := epochs args * Z.of_nat (Loader.len train_loader);
          best_acc := ck_best_acc (saved_checkpoint env) |}
  else {| iteration := 0; best_acc := 0 |}.

(** A run that is to resume finds its checkpoint file. *)
Definition resumable : bool :=
  negb (restart args) || readable env (path_str (checkpoint_name args)).

Definition resuming : list event :=
  if restart args
  then [TorchLoad (path_str (checkpoint_name args));
        LoadStateDict (ModelState model);
        LoadStateDict OptimizerState; LoadStateDict SchedulerState]
  else [].

Definition loop :=
  for_each (Py.range (start_epoch resumed_args) (epochs resumed_args + 1))
    (epoch_body resumed_args env model opt sched train_loader val_loader)
    initial out_dirs.

End Run.
End Food101Run.

Module DistributedRun.
Import Distributed.

Section Run.
Variables (args : Args) (env : Env) (fs : FS).

Definition ngpus_per_node : Z := cuda_device_count (host env).

(** [args] once [init_distributed_mode] has set its attributes. *)
Definition initialised : Args :=
  match host env with
  | SingleProcess _ => set_distributed false 0 1 0 args
  | Launched r n g => set_distributed true r n (r mod Pos.to_nat g) args
  end.

Definition joining : list event :=
  match host env with
  | SingleProcess _ => []
  | Launched r n _ => [InitProcessGroup r n]
  end.

(** [args] as the loaders see it. *)
Definition configured : Args :=
  match host env with
  | SingleProcess _ => initialised
  | Launched _ _ _ =>
      set_workers
        (Z.quot (workers args + ngpus_per_node - 1) ngpus_per_node)
        (set_batch_size (Z.quot (batch_size args) ngpus_per_node)
                        initialised)
  end.

Definition train_loader :=
  loader_of (fst (load_data configured env)) (batch_size configured) true.
Definition val_loader :=
  loader_of (snd (load_data configured env)) (batch_size configured) false.
Definition model : nnmodule := if apex args then Amp Net else Net.

Definition setup : list event :=
  SeedEverything (seed args) :: GetWorkerInit :: weight_log fs ++ joining ++
  [TorchDevice; SummaryWriter;
   NewDataLoader true (batch_size configured) (workers configured) true;
   NewDataLoader false (batch_size configured) (workers configured) false;
   NewModel; NewCriterion; NewOptimizer] ++
  (if apex args then [AmpInitialize] else []) ++
  (if distributed configured then [NewDistributedDataParallel] else []).

Definition loop :=
  for_each (Py.range 1 (epochs args + 1))
    (epoch_body configured env model train_loader val_loader)
    {| iteration := 0; best_acc := 0; best_acc1 := None |}
    (weight_dirs fs).

End Run.
End DistributedRun.

(** ** Sample configurations and hosts *)

Module Sample.

(** Two epochs, batches of two, everything else off. *)
Definition args : Args :=
  {| seed := 1; apex := false; apex_opt_level := "O1"; evaluate := false;
     restart := false; resume := "weight/AnimeFace_resnet18_best.pth";
     epochs := 2; start_epoch := 1; batch_size := 2; workers := 4;
     lr_step_size := 1; path2weight := "weight"; exp_name := "food101";
     distributed := false; rank := 0; world_size := 1; gpu := 0 |}.

Definition with_apex (a : Args) : Args :=
  {| seed := seed a; apex := true; apex_opt_level := apex_opt_level a;
     evaluate := evaluate a; restart := restart a; resume := resume a;
     epochs := epochs a; start_epoch := start_epoch a;
     batch_size := batch_size a; workers := workers a;
     lr_step_size := lr_step_size a;
     path2weight := path2weight a; exp_name := exp_name a;
     distributed := distributed a; rank := rank a;
     world_size := world_size a; gpu := gpu a |}.

Definition with_evaluate (a : Args) : Args :=
  {| seed := seed a; apex := apex a; apex_opt_level := apex_opt_level a;
     evaluate := true; restart := restart a; resume := resume a;
     epochs := epochs a; start_epoch := start_epoch a;
     batch_size := batch_size a; workers := workers a;
     lr_step_size := lr_step_size a;
     path2weight := path2weight a; exp_name := exp_name a;
     distributed := distributed a; rank := rank a;
     world_size := world_size a; gpu := gpu a |}.

Definition with_restart (total : Z) (a : Args) : Args :=
  {| seed := seed a; apex := apex a; apex_opt_level := apex_opt_level a;
     evaluate := evaluate a; restart := true; resume := resume a;
     epochs := total; start_epoch := start_epoch a;
     batch_size := batch_size a; workers := workers a;
     lr_step_size := lr_step_size a;
     path2weight := path2weight a; exp_name := exp_name a;
     distributed := distributed a; rank := rank a;
     world_size := world_size a; gpu := gpu a |}.

Definition with_path2weight (d : string) (a : Args) : Args :=
  {| seed := seed a; apex := apex a; apex_opt_level := apex_opt_level a;
     evaluate := evaluate a; restart := restart a; resume := resume a;
     epochs := epochs a; start_epoch := start_epoch a;
     batch_size := batch_size a; workers := workers a;
     lr_step_size := lr_step_size a;
     path2weight := d; exp_name := exp_name a;
     distributed := distributed a; rank := rank a;
     world_size := world_size a; gpu := gpu a |}.

(** One process, one GPU, no apex; five training and five validation
    samples; the validation accuracy is 50 after epoch 1 and 30 after
    every other; the resume checkpoint was written in epoch 3 with best
    accuracy 40; the files a run loads are there. *)
Definition env : Env :=
  {| amp_available := false;
     host := SingleProcess 1;
     train_set := seq 0 5;
     val_set := seq 0 5;
     val_acc := fun e => if e =? 1 then 50 else 30;
     saved_checkpoint := {| ck_epoch := 3; ck_best_acc := 40 |};
     readable := fun _ => true |}.

(** The same with apex installed. *)
Definition env_with_amp : Env :=
  {| amp_available := true;
     host := host env;
     train_set := train_set env;
     val_set := val_set env;
     val_acc := val_acc env;
     saved_checkpoint := saved_checkpoint env;
     readable := readable env |}.

(** The same where no weights or checkpoint file has been written yet. *)
Definition env_without_files : Env :=
  {| amp_available := amp_available env;
     host := host env;
     train_set := train_set env;
     val_set := val_set env;
     val_acc := val_acc env;
     saved_checkpoint := saved_checkpoint env;
     readable := fun _ => false |}.

End Sample.

(** * What the properties speak of *)

(** ** Events by kind *)

Definition is_save (ev : event) : bool :=
  match ev with TorchSave _ _ => true | _ => false end.

Definition is_bundle_save (ev : event) : bool :=
  match ev with TorchSave _ (Bundle _ _ _ _ _ _) => true | _ => false end.

Definition is_train_pass (ev : event) : bool :=
  match ev with TrainPass _ _ _ => true | _ => false end.

Definition is_validate_pass (ev : event) : bool :=
  match ev with ValidatePass _ _ => true | _ => false end.

Definition is_scheduler_call (ev : event) : bool :=
  match ev with NewScheduler _ | SchedulerStep => true | _ => false end.

Definition is_set_epoch (ev : event) : bool :=
  match ev with SetEpoch _ => true | _ => false end.

Definition count (p : event -> bool) (l : list event) : nat :=
  length (filter p l).

(** The batch sizes the passes of a run over [B*k + r] samples meet. *)
Definition pass_shape (B k r : nat) (ev : event) : Prop :=
  match ev with
  | TrainPass _ _ bs => bs = repeat B k
  | ValidatePass _ bs => bs = repeat B k ++ [r]
  | _ => True
  end.

(** A data loader is constructed with batch size [b] and [w] workers. *)
Definition loader_built_with (b w : Z) (ev : event) : Prop :=
  match ev with
  | NewDataLoader _ b' w' _ => b' = b /\ w' = w
  | _ => True
  end.

(** The arguments the constructors of a run's two data loaders accept:
    [BatchSampler] raises [ValueError] unless the batch size is a
    positive integer, [DataLoader] unless the worker count is not
    negative, and [RandomSampler], which draws the training indices
    wherever no sampler of a process group does, unless there is a
    sample to draw. *)
Definition loader_accepts (batch_size workers : Z) (drawn_at_random : bool)
           (train : list nat) : Prop :=
  0 < batch_size /\ 0 <= workers /\
  (drawn_at_random = true -> train <> []).

(** A process launched in a group of [n] has a rank below [n], for
    which [DistributedSampler] raises [ValueError] otherwise, and finds
    ['weight'] in place: the processes of a group all look for it when
    they start and each that misses it calls [os.mkdir], which raises
    [FileExistsError] in all of them but one. *)
Definition host_in_group (h : Host) (fs : FS) : Prop :=
  match h with
  | SingleProcess _ => True
  | Launched r n _ => (r < n)%nat /\ dir_exists "weight" fs = true
  end.

(** The Anime and the Food101 program get their two loaders: both draw
    the training indices at random. *)
Definition loaders_accepted (args : Args) (env : Env) : Prop :=
  loader_accepts (batch_size args) (workers args) true (train_set env).

(** The names the Food101 program builds its paths from: an output
    directory [os.makedirs] can make, which raises [FileNotFoundError]
    for the empty path, and an experiment name that puts no directory of
    its own into a path. *)
Fixpoint contains_slash (s : string) : bool :=
  match s with
  | EmptyString => false
  | String c s' => Ascii.eqb c "/"%char || contains_slash s'
  end.

Definition names_accepted (args : Args) : Prop :=
  path2weight args <> ""%string /\ contains_slash (exp_name args) = false.

(** The Distributed program gets its directory, its samplers and its
    two loaders, with the batch size and the worker count of the
    process, which are those [int(a / b)] gives for counts below 2^53,
    where the float quotient is exact. *)
Definition distributed_start_accepted (args : Args) (env : Env) (fs : FS)
  : Prop :=
  host_in_group (host env) fs /\
  (0 <= batch_size args < 2 ^ 53 /\
   0 <= workers args /\
   workers args + cuda_device_count (host env) - 1 < 2 ^ 53) /\
  loader_accepts (batch_size (DistributedRun.configured args env))
                 (workers (DistributedRun.configured args env))
                 (negb (distributed (DistributedRun.configured args env)))
                 (train_set env).

(** What evaluate-only mode promises of a run: it ends, by [sys.exit()]
    or by returning; the weights file at [path] is loaded into a module
    that is no parallel wrapper; exactly one validation pass is made,
    and it is made after the load; no training pass and no optimizer
    step; no scheduler is constructed or stepped; nothing is saved. *)
Definition evaluates_only (path : string)
           (r : result unit * FS * list event) : Prop :=
  (outcome r = Raise SystemExit \/ outcome r = Ret tt) /\
  (exists m l1 l2,
     is_unwrapped m = true /\
     log r = l1 ++ TorchLoad path :: LoadStateDict (ModelState m) :: l2 /\
     count is_validate_pass l1 = 0%nat /\
     count is_validate_pass l2 = 1%nat) /\
  count is_train_pass (log r) = 0%nat /\
  optimizer_steps (log r) = 0%nat /\
  count is_scheduler_call (log r) = 0%nat /\
  count is_save (log r) = 0%nat.

(** Every training pass in the log comes right after [set_epoch] was
    called with the epoch of that pass. *)
Definition sampler_notified (l : list event) : Prop :=
  forall l1 e it bs l2,
    l = l1 ++ TrainPass e it bs :: l2 ->
    exists l0, l1 = l0 ++ [SetEpoch e].

(** What is saved is the state of a module that is no parallel wrapper. *)
Definition saves_unwrapped (ev : event) : Prop :=
  match ev with
  | TorchSave _ (StateDict m) => is_unwrapped m = true
  | TorchSave _ (Bundle m _ _ _ _ _) => is_unwrapped m = true
  | _ => True
  end.

(** What C3 states of a run of the Food101 program: every epoch of the
    loop leaves a resume bundle carrying its number. *)
Definition persists_every_epoch (args : Args) (env : Env) (fs : FS) : Prop :=
  forall e,
    In e (Py.range (start_epoch args) (epochs args + 1)) ->
    exists m o s b a,
      In (TorchSave (Food101.checkpoint_name args) (Bundle m o s e b a))
         (log (Food101.main args env fs)).

(** The best score before a round, given the rounds made since it was
    [best]. *)
Definition best_before (acc : Z -> Z) (best : Z) (earlier : list Z) : Z :=
  fold_left (fun b e => Z.max b (acc e)) earlier best.

(** The epochs whose accuracy strictly exceeds the best score before
    them, each with the best score it sets. *)
Fixpoint improvements (acc : Z -> Z) (best : Z) (es : list Z)
  : list (Z * Z) :=
  match es with
  | [] => []
  | e :: es' =>
      if acc e >? best
      then (e, acc e) :: improvements acc (acc e) es'
      else improvements acc best es'
  end.

(** The write of the resume bundle of epoch [fst eb] with best score
    [snd eb]. *)
Definition bundle_write (args : Args) (m : nnmodule) (o : optimizer)
           (s : scheduler) (eb : Z * Z) : event :=
  TorchSave (Food101.checkpoint_name args)
            (Bundle m o s (fst eb) (snd eb) args).

(** The two writes of an epoch that sets the best score [snd eb]: the
    best weights, and then the resume bundle. *)
Definition improvement_writes (args : Args) (m : nnmodule) (o : optimizer)
           (s : scheduler) (eb : Z * Z) : list event :=
  [TorchSave (Food101.weight_name args) (StateDict m);
   bundle_write args m o s eb].

(** The calls of a round that every round makes. *)
Definition is_pass_call (ev : event) : bool :=
  match ev with
  | TrainPass _ _ _ | ValidatePass _ _ | SchedulerStep => true
  | _ => false
  end.

Definition is_writer_close (ev : event) : bool :=
  match ev with WriterClose => true | _ => false end.

Definition is_amp_initialize (ev : event) : bool :=
  match ev with AmpInitialize => true | _ => false end.

Definition is_weights_save (ev : event) : bool :=
  match ev with TorchSave _ (StateDict _) => true | _ => false end.

(** The summary writer is closed by the last call of a training run that
    ends normally, and by no call of any other run. *)
Definition closes_writer_last (evaluating : bool)
           (r : result unit * FS * list event) : Prop :=
  match outcome r with
  | Ret _ =>
      if evaluating then count is_writer_close (log r) = 0%nat
      else exists l,
          log r = l ++ [WriterClose] /\ count is_writer_close l = 0%nat
  | Raise _ => count is_writer_close (log r) = 0%nat
  end.

(** The write that comes right before the write of a resume bundle:
    that of the state of the bundle's model to the best-weights file of
    the bundle's configuration. *)
Definition weights_before_bundle (ev : event) : option event :=
  match ev with
  | TorchSave _ (Bundle m _ _ _ _ a) =>
      Some (TorchSave (Food101.weight_name a) (StateDict m))
  | _ => None
  end.

(** Every call of the log that [before] gives a forerunner comes right
    after that forerunner. *)
Definition preceded (before : event -> option event) (l : list event)
  : Prop :=
  forall l1 ev l2 pre,
    l = l1 ++ ev :: l2 -> before ev = Some pre ->
    exists l0, l1 = l0 ++ [pre].

(** Best weights and resume bundle are written in pairs: no bundle
    without the weights, at most one write of the weights without its
    bundle, and none in a run that ends normally. *)
Definition writes_paired (r : result unit * FS * list event) : Prop :=
  preceded weights_before_bundle (log r) /\
  (count is_bundle_save (log r) <= count is_weights_save (log r)
   <= count is_bundle_save (log r) + 1)%nat /\
  (outcome r = Ret tt ->
   count is_weights_save (log r) = count is_bundle_save (log r)).

(** * Properties *)

(** ** Batching *)

Section BatchingFacts.
Context {A : Type}.
Local Open Scope nat_scope.

Lemma batch_iter_sizes (B : nat) (dl : bool) (xs : list A) :
  forall batch, length batch < B ->
    map (@length A) (Loader.batch_iter B dl xs batch)
    = Loader.sizes B dl (length batch + length xs).
Proof.
  induction xs as [|x xs IH]; intros batch Hb; cbn [Loader.batch_iter].
  - unfold Loader.sizes. rewrite Nat.add_0_r.
    rewrite Nat.div_small, Nat.mod_small by exact Hb. cbn [repeat app].
    destruct (0 <? length batch) eqn:E, dl; reflexivity.
  - rewrite length_app. cbn [length].
    destruct (Nat.eqb_spec (length batch + 1) B) as [Heq|Hne].
    + cbn [map]. rewrite (IH []) by (cbn; lia). cbn [length].
      rewrite length_app. cbn [length]. rewrite Heq.
      unfold Loader.sizes.
      replace (length batch + S (length xs)) with (length xs + 1 * B) by lia.
      rewrite Nat.div_add, Nat.Div0.mod_add by lia.
      rewrite Nat.add_0_l, Nat.add_1_r. reflexivity.
    + rewrite IH by (rewrite length_app; cbn; lia).
      rewrite length_app. cbn [length]. f_equal. lia.
Qed.

Lemma batches_sizes (dl : Loader.DataLoader A) :
  0 < Loader.dl_batch_size dl ->
  map (@length A) (Loader.batches dl)
  = Loader.sizes (Loader.dl_batch_size dl) (Loader.dl_drop_last dl)
                 (length (Loader.dl_sampler dl)).
Proof.
  intros HB. unfold Loader.batches.
  rewrite batch_iter_sizes by exact HB. reflexivity.
Qed.

Lemma sizes_ragged (B k r : nat) (dl : bool) :
  0 < r < B ->
  Loader.sizes B dl (B * k + r)
  = repeat B k ++ (if dl then [] else [r]).
Proof.
  intros Hr. unfold Loader.sizes.
  replace (B * k + r) with (r + k * B) by lia.
  rewrite Nat.div_add, Nat.Div0.mod_add by lia.
  rewrite Nat.div_small, Nat.mod_small by lia.
  replace (0 <? r) with true by (symmetry; apply Nat.ltb_lt; lia).
  destruct dl; reflexivity.
Qed.

(** [len(loader)] is the number of batches a pass yields. *)
Lemma len_batches (dl : Loader.DataLoader A) :
  0 < Loader.dl_batch_size dl ->
  Loader.len dl = length (Loader.batches dl).
Proof.
  intros HB.
  rewrite <- (length_map (@length A)), batches_sizes by exact HB.
  unfold Loader.len, Loader.sizes.
  set (B := Loader.dl_batch_size dl) in *.
  set (n := length (Loader.dl_sampler dl)).
  rewrite length_app, repeat_length.
  pose proof (Nat.div_mod_eq n B) as Hn.
  pose proof (Nat.mod_upper_bound n B ltac:(lia)) as Hm.
  destruct (Loader.dl_drop_last dl); cbn [negb andb].
  - rewrite andb_false_r. cbn. lia.
  - rewrite andb_true_r.
    destruct (Nat.ltb_spec 0 (n mod B)) as [Hpos|Hz]; cbn [length].
    + replace (n + B - 1) with ((n mod B - 1) + (n / B + 1) * B) by lia.
      rewrite Nat.div_add by lia. rewrite Nat.div_small by lia. lia.
    + replace (n + B - 1) with ((B - 1) + (n / B) * B) by lia.
      rewrite Nat.div_add by lia. rewrite Nat.div_small by lia. lia.
Qed.
End BatchingFacts.

(** ** Reasoning about logs *)

Lemma bind_run {A B} (m : M A) (k : A -> M B) (fs : FS) :
  bind m k fs =
  match m fs with
  | (Ret a, fs1, l1) => (outcome (k a fs1), dirs_after (k a fs1),
                         l1 ++ log (k a fs1))
  | (Raise e, fs1, l1) => (Raise e, fs1, l1)
  end.
Proof.
  unfold bind. destruct (m fs) as [[[a|e] fs1] l1]; [|reflexivity].
  destruct (k a fs1) as [[r fs2] l2]. reflexivity.
Qed.

Lemma for_each_cons {S} (x : Z) (xs : list Z) (body : Z -> S -> M S)
      (s : S) (fs : FS) :
  for_each (x :: xs) body s fs =
  match body x s fs with
  | (Ret s', fs1, l1) =>
      (outcome (for_each xs body s' fs1), dirs_after (for_each xs body s' fs1),
       l1 ++ log (for_each xs body s' fs1))
  | (Raise e, fs1, l1) => (Raise e, fs1, l1)
  end.
Proof. cbn [for_each]. apply bind_run. Qed.

(** A property of logs that holds of the empty log and is kept by
    concatenation holds of a loop's log as soon as it holds of every
    round's. *)
Section LogInvariant.
Variable Q : list event -> Prop.
Hypothesis Q_nil : Q [].
Hypothesis Q_app : forall l l', Q l -> Q l' -> Q (l ++ l').

Lemma for_each_log {S} (body : Z -> S -> M S) :
  (forall x s fs, Q (log (body x s fs))) ->
  forall xs s fs, Q (log (for_each xs body s fs)).
Proof.
  intros Hbody. induction xs as [|x xs IH]; intros s fs.
  - exact Q_nil.
  - rewrite for_each_cons. specialize (Hbody x s fs).
    destruct (body x s fs) as [[[s'|e] fs1] l1]; cbn [log snd] in *.
    + apply Q_app; [exact Hbody | apply IH].
    + exact Hbody.
Qed.
End LogInvariant.

Lemma for_each_Forall {S} (P : event -> Prop) (body : Z -> S -> M S) :
  (forall x s fs, Forall P (log (body x s fs))) ->
  forall xs s fs, Forall P (log (for_each xs body s fs)).
Proof.
  apply (for_each_log (Forall P)).
  - constructor.
  - intros l l' Hl Hl'. apply Forall_app. split; assumption.
Qed.

(** ** Counting calls *)

Lemma filter_none (p : event -> bool) (l : list event) :
  Forall (fun ev => p ev = false) l -> filter p l = [].
Proof.
  induction 1 as [|ev l Hev _ IH]; [reflexivity|].
  cbn [filter]. rewrite Hev. exact IH.
Qed.

Lemma count_none (p : event -> bool) (l : list event) :
  Forall (fun ev => p ev = false) l -> count p l = 0%nat.
Proof. intros H. unfold count. rewrite filter_none by exact H. reflexivity. Qed.

Lemma count_app (p : event -> bool) (l l' : list event) :
  count p (l ++ l') = (count p l + count p l')%nat.
Proof. unfold count. rewrite filter_app. apply length_app. Qed.

Lemma optimizer_steps_none (l : list event) :
  Forall (fun ev => is_train_pass ev = false) l ->
  optimizer_steps l = 0%nat.
Proof.
  unfold optimizer_steps, list_sum.
  induction 1 as [|ev l Hev _ IH]; [reflexivity|].
  cbn [map fold_right]. rewrite IH.
  destruct ev; try reflexivity. discriminate Hev.
Qed.

(** ** Directories *)

Lemma ensure_weight_dir_run (fs : FS) :
  ensure_weight_dir fs = (Ret tt, weight_dirs fs, weight_log fs).
Proof.
  unfold ensure_weight_dir, weight_dirs, weight_log, bind, os_path_exists,
    when, os_mkdir, ret.
  destruct (dir_exists "weight" fs) eqn:E; cbn [negb]; [reflexivity|].
  rewrite E. reflexivity.
Qed.

Lemma weight_dirs_exists (fs : FS) :
  dir_exists "weight" (weight_dirs fs) = true.
Proof.
  unfold weight_dirs. destruct (dir_exists "weight" fs) eqn:E; [exact E|].
  reflexivity.
Qed.

Lemma dir_exists_head (d : string) (fs : FS) :
  dir_exists d (d :: fs) = true.
Proof. unfold dir_exists. cbn [existsb]. rewrite String.eqb_refl. reflexivity. Qed.

Lemma dir_exists_tail (d x : string) (fs : FS) :
  dir_exists d fs = true -> dir_exists d (x :: fs) = true.
Proof.
  unfold dir_exists. cbn [existsb]. intros ->. apply orb_true_r.
Qed.

Lemma make_missing_keeps (d : string) :
  forall ds fs,
    dir_exists d fs = true -> dir_exists d (fst (make_missing ds fs)) = true.
Proof.
  induction ds as [|x ds IH]; intros fs Hd; cbn [make_missing]; [exact Hd|].
  destruct (dir_exists x fs); cbn [fst]; apply IH; [exact Hd|].
  apply dir_exists_tail. exact Hd.
Qed.

Lemma make_missing_exists (d : string) :
  forall ds fs, In d ds -> dir_exists d (fst (make_missing ds fs)) = true.
Proof.
  induction ds as [|x ds IH]; intros fs Hin; [destruct Hin|].
  cbn [make_missing].
  destruct Hin as [-> | Hin].
  - destruct (dir_exists d fs) eqn:E; cbn [fst]; apply make_missing_keeps;
      [exact E | apply dir_exists_head].
  - destruct (dir_exists x fs); cbn [fst]; apply IH; exact Hin.
Qed.

Lemma make_missing_events (P : event -> Prop) :
  (forall d, P (Mkdir d)) ->
  forall ds fs, Forall P (snd (make_missing ds fs)).
Proof.
  intros HP. induction ds as [|x ds IH]; intros fs; cbn [make_missing].
  - constructor.
  - destruct (dir_exists x fs); cbn [snd]; [apply IH|].
    constructor; [apply HP | apply IH].
Qed.

(** [os.makedirs] leaves [args.path2weight] in place, and whatever was
    there. *)
Lemma out_dirs_exists (args : Args) (fs : FS) :
  dir_exists (path2weight args) (Food101Run.out_dirs args fs) = true.
Proof.
  unfold Food101Run.out_dirs. apply make_missing_exists.
  apply in_or_app. right. left. reflexivity.
Qed.

(** ['weight'] is there after startup when it was there before, when it
    is the output directory, or when the output directory lies under
    it. *)
Lemma weight_beside_output (args : Args) (fs : FS) :
  dir_exists "weight" fs = true \/
  In "weight"%string (ancestors (path2weight args) ++ [path2weight args]) ->
  dir_exists "weight" (Food101Run.out_dirs args fs) = true.
Proof.
  intros [Hthere | Hmade].
  - apply make_missing_keeps. exact Hthere.
  - apply make_missing_exists. exact Hmade.
Qed.

(** ** The runs of the three programs, phase by phase *)

(** Runs the straight-line code around a loop and names the loop's run. *)
Ltac run_loop :=
  unfold bind; cbn -[for_each Py.range weight_dirs weight_log Z.add];
  match goal with
  | |- context [for_each ?xs ?b ?s ?fs] =>
      destruct (for_each xs b s fs) as [[[?st|?e] ?fs2] ?l]
  end;
  cbn; rewrite <- ?app_assoc, ?app_nil_r; cbn [app]; reflexivity.

Lemma anime_main_run (args : Args) (env : Env) (fs : FS) :
  Anime.main args env fs =
  if apex args && negb (amp_available env)
  then (Raise RuntimeError, fs, [SeedEverything (seed args)])
  else if evaluate args
  then if readable env (resume args)
       then (Raise SystemExit, weight_dirs fs,
             AnimeRun.setup args fs
             ++ [TorchLoad (resume args); LoadStateDict (ModelState Net)]
             ++ (if AnimeRun.multigpu env then [NewDataParallel] else [])
             ++ [ValidatePass 0 (pass_sizes (AnimeRun.val_loader args env))])
       else (Raise (FileNotFoundError (resume args)), weight_dirs fs,
             AnimeRun.setup args fs)
  else (finish (outcome (AnimeRun.loop args env fs)),
        dirs_after (AnimeRun.loop args env fs),
        AnimeRun.setup args fs ++ AnimeRun.wrapping args env
        ++ log (AnimeRun.loop args env fs)
        ++ closing (outcome (AnimeRun.loop args env fs))).
Proof.
  unfold Anime.main, check_apex, when.
  rewrite bind_run. cbn [seed_everything emit].
  rewrite bind_run.
  destruct (apex args && negb (amp_available env)) eqn:Egate;
    [reflexivity|].
  cbn [ret outcome dirs_after log fst snd app].
  rewrite bind_run, ensure_weight_dir_run.
  unfold AnimeRun.loop, AnimeRun.setup, AnimeRun.wrapping, AnimeRun.model,
    AnimeRun.multigpu, AnimeRun.train_loader, AnimeRun.val_loader.
  destruct (evaluate args) eqn:Eev.
  - unfold open_for_reading.
    destruct (readable env (resume args)),
      (cuda_device_count (host env) >? 1); cbn;
      rewrite <- ?app_assoc, ?app_nil_r; reflexivity.
  - unfold precision_wrap.
    destruct (apex args), (cuda_device_count (host env) >? 1);
      run_loop.
Qed.

Lemma food101_main_run (args : Args) (env : Env) (fs : FS) :
  Food101.main args env fs =
  if apex args && negb (amp_available env)
  then (Raise RuntimeError, fs, [SeedEverything (seed args)])
  else if evaluate args
  then if readable env (path_str (Food101.weight_name args))
       then (Raise SystemExit, Food101Run.out_dirs args fs,
             Food101Run.setup args fs
             ++ [TorchLoad (path_str (Food101.weight_name args));
                 LoadStateDict (ModelState Net)]
             ++ (if Food101Run.multigpu env then [NewDataParallel] else [])
             ++ [ValidatePass 0
                   (pass_sizes (Food101Run.val_loader args env))])
       else (Raise (FileNotFoundError
                      (path_str (Food101.weight_name args))),
             Food101Run.out_dirs args fs, Food101Run.setup args fs)
  else if Food101Run.resumable args env
  then (finish (outcome (Food101Run.loop args env fs)),
        dirs_after (Food101Run.loop args env fs),
        Food101Run.setup args fs ++ Food101Run.wrapping args env
        ++ Food101Run.resuming args
        ++ log (Food101Run.loop args env fs)
        ++ closing (outcome (Food101Run.loop args env fs)))
  else (Raise (FileNotFoundError (path_str (Food101.checkpoint_name args))),
        Food101Run.out_dirs args fs,
        Food101Run.setup args fs ++ Food101Run.wrapping args env).
Proof.
  unfold Food101.main, check_apex, when.
  rewrite bind_run. cbn [seed_everything emit].
  rewrite bind_run.
  destruct (apex args && negb (amp_available env)) eqn:Egate;
    [reflexivity|].
  cbn [ret outcome dirs_after log fst snd app].
  rewrite bind_run.
  unfold Food101Run.loop, Food101Run.setup, Food101Run.wrapping,
    Food101Run.resuming, Food101Run.initial, Food101Run.resumed_args,
    Food101Run.resumable,
    Food101Run.model, Food101Run.opt, Food101Run.sched, Food101Run.multigpu,
    Food101Run.train_loader, Food101Run.val_loader, Food101Run.out_dirs,
    Food101Run.out_log, os_makedirs.
  set (ds := ancestors (path2weight args) ++ [path2weight args]).
  generalize (fst (make_missing ds fs)), (snd (make_missing ds fs)).
  intros dirs made.
  cbn [outcome dirs_after log fst snd].
  unfold open_for_reading.
  destruct (evaluate args) eqn:Eev.
  - destruct (readable env (path_str (Food101.weight_name args))),
      (cuda_device_count (host env) >? 1); cbn;
      rewrite <- ?app_assoc, ?app_nil_r; reflexivity.
  - unfold precision_wrap, Food101.resume_run.
    destruct (restart args); cbn [negb orb];
      [destruct (readable env (path_str (Food101.checkpoint_name args)))|];
      destruct (apex args), (cuda_device_count (host env) >? 1);
      try run_loop;
      cbn; rewrite <- ?app_assoc, ?app_nil_r; reflexivity.
Qed.

Lemma per_process_run (args : Args) (env : Env) (fs : FS) :
  Distributed.per_process (DistributedRun.initialised args env)
                          (DistributedRun.ngpus_per_node env) fs
  = (Ret (DistributedRun.configured args env), fs, []).
Proof.
  unfold Distributed.per_process, DistributedRun.configured,
    DistributedRun.initialised, DistributedRun.ngpus_per_node,
    Py.int_truediv.
  destruct (host env) as [n|r n g]; reflexivity.
Qed.

Lemma distributed_main_run (args : Args) (env : Env) (fs : FS) :
  Distributed.main args env fs =
  if apex args && negb (amp_available env)
  then (Raise RuntimeError, fs, [SeedEverything (seed args); GetWorkerInit])
  else if evaluate args
  then if readable env (resume args)
       then (Ret tt, weight_dirs fs,
             DistributedRun.setup args env fs
             ++ [TorchLoad (resume args);
                 LoadStateDict (ModelState (DistributedRun.model args));
                 ValidatePass 0
                   (pass_sizes (DistributedRun.val_loader args env))])
       else (Raise (FileNotFoundError (resume args)), weight_dirs fs,
             DistributedRun.setup args env fs)
  else (finish (outcome (DistributedRun.loop args env fs)),
        dirs_after (DistributedRun.loop args env fs),
        DistributedRun.setup args env fs
        ++ [NewScheduler (MultiStepLR (Py.int_half (epochs args))
                                      (Py.int_three_quarters (epochs args)))]
        ++ log (DistributedRun.loop args env fs)
        ++ closing (outcome (DistributedRun.loop args env fs))).
Proof.
  unfold Distributed.main, check_apex, when.
  rewrite bind_run. cbn [seed_everything emit].
  rewrite bind_run. cbn [get_worker_init emit].
  rewrite bind_run.
  destruct (apex args && negb (amp_available env)) eqn:Egate;
    [reflexivity|].
  cbn [ret outcome dirs_after log fst snd app].
  rewrite bind_run, ensure_weight_dir_run.
  unfold DistributedRun.loop, DistributedRun.setup,
    DistributedRun.train_loader, DistributedRun.val_loader,
    DistributedRun.model, DistributedRun.joining.
  generalize (per_process_run args env (weight_dirs fs)).
  unfold DistributedRun.configured, DistributedRun.initialised,
    DistributedRun.ngpus_per_node, Distributed.init_distributed_mode,
    precision_wrap.
  destruct (host env) as [n|r n g]; intros Hpp;
    rewrite bind_run; cbn [ret emit bind outcome dirs_after log fst snd app];
    rewrite bind_run; cbn [torch_device emit outcome dirs_after log fst snd];
    rewrite bind_run; cbn [summary_writer emit outcome dirs_after log fst snd];
    rewrite bind_run, Hpp;
    destruct (evaluate args) eqn:Eev, (apex args) eqn:Eap.
  all: try (unfold open_for_reading; cbn; rewrite ?Eev, ?Eap; cbn;
            destruct (readable env (resume args)); cbn;
            rewrite <- ?app_assoc, ?app_nil_r; cbn [app]; reflexivity).
  all: cbn -[for_each Py.range weight_dirs weight_log Z.add Z.quot];
    rewrite ?Eev, ?Eap;
    unfold bind;
    cbn -[for_each Py.range weight_dirs weight_log Z.add Z.quot];
    match goal with
    | |- context [for_each ?xs ?b ?s ?fs] =>
        destruct (for_each xs b s fs) as [[[?st|?e] ?fs2] ?l]
    end;
    cbn; rewrite <- ?app_assoc, ?app_nil_r; cbn [app]; reflexivity.
Qed.

(** ** One round of each epoch loop *)

Lemma anime_body_run env m tl vl e st fs :
  Anime.epoch_body env m tl vl e st fs =
  let st' := {| Anime.iteration :=
                  Anime.iteration st + Z.of_nat (Loader.len tl);
                Anime.best_acc := Anime.best_acc st;
                Anime.best_acc1 :=
                  Some (Py.max (val_acc env e) (Anime.best_acc st)) |} in
  if val_acc env e >? Anime.best_acc st then
    if dir_exists "weight" fs
    then (Ret st', fs,
          passes tl vl e (Anime.iteration st)
          ++ [TorchSave Anime.saved_weight (StateDict m)])
    else (Raise (FileNotFoundError "weight"), fs,
          passes tl vl e (Anime.iteration st))
  else (Ret st', fs, passes tl vl e (Anime.iteration st)).
Proof.
  unfold Anime.epoch_body, passes, bind, train, validate, scheduler_step,
    when, torch_save, emit, ret.
  cbn -[Z.add Z.gtb dir_exists].
  destruct (val_acc env e >? Anime.best_acc st); cbn -[Z.add dir_exists];
    [|reflexivity].
  change (pdir Anime.saved_weight) with "weight"%string.
  destruct (dir_exists "weight" fs); reflexivity.
Qed.

Lemma food101_body_run args env m o s tl vl e st fs :
  Food101.epoch_body args env m o s tl vl e st fs =
  let best' := Py.max (val_acc env e) (Food101.best_acc st) in
  let st' := {| Food101.iteration :=
                  Food101.iteration st + Z.of_nat (Loader.len tl);
                Food101.best_acc := best' |} in
  if val_acc env e >? Food101.best_acc st then
    if dir_exists (path2weight args) fs then
      if dir_exists "weight" fs
      then (Ret st', fs,
            passes tl vl e (Food101.iteration st)
            ++ [TorchSave (Food101.weight_name args) (StateDict m);
                TorchSave (Food101.checkpoint_name args)
                          (Bundle m o s e best' args)])
      else (Raise (FileNotFoundError "weight"), fs,
            passes tl vl e (Food101.iteration st)
            ++ [TorchSave (Food101.weight_name args) (StateDict m)])
    else (Raise (FileNotFoundError (path2weight args)), fs,
          passes tl vl e (Food101.iteration st))
  else (Ret st', fs, passes tl vl e (Food101.iteration st)).
Proof.
  unfold Food101.epoch_body, passes, bind, train, validate, scheduler_step,
    when, torch_save, emit, ret.
  cbn -[Z.add Z.gtb dir_exists].
  destruct (val_acc env e >? Food101.best_acc st); cbn -[Z.add dir_exists];
    [|reflexivity].
  destruct (dir_exists (path2weight args) fs); [|reflexivity].
  destruct (dir_exists "weight" fs); reflexivity.
Qed.

Lemma distributed_body_run args env m tl vl e st fs :
  Distributed.epoch_body args env m tl vl e st fs =
  let st' := {| Distributed.iteration :=
                  Distributed.iteration st + Z.of_nat (Loader.len tl);
                Distributed.best_acc := Distributed.best_acc st;
                Distributed.best_acc1 :=
                  Some (Py.max (val_acc env e) (Distributed.best_acc st)) |} in
  let notify := if distributed args then [SetEpoch e] else [] in
  if (val_acc env e >? Distributed.best_acc st)
     && Distributed.is_main_process env then
    if dir_exists "weight" fs
    then (Ret st', fs,
          notify ++ passes tl vl e (Distributed.iteration st)
          ++ [TorchSave Distributed.saved_weight (StateDict m)])
    else (Raise (FileNotFoundError "weight"), fs,
          notify ++ passes tl vl e (Distributed.iteration st))
  else (Ret st', fs, notify ++ passes tl vl e (Distributed.iteration st)).
Proof.
  unfold Distributed.epoch_body, Distributed.set_epoch,
    Distributed.save_on_master, passes, bind, train, validate,
    scheduler_step, when, torch_save, emit, ret.
  destruct (distributed args);
    cbn -[Z.add Z.gtb dir_exists Distributed.is_main_process];
    destruct (val_acc env e >? Distributed.best_acc st);
    cbn -[Z.add dir_exists Distributed.is_main_process];
    try reflexivity;
    destruct (Distributed.is_main_process env);
    cbn -[Z.add dir_exists]; try reflexivity;
    change (pdir Distributed.saved_weight) with "weight"%string;
    destruct (dir_exists "weight" fs); reflexivity.
Qed.

(** Splits a [Forall] over a log written as a concatenation. *)
Ltac events :=
  repeat first
    [ apply Forall_nil
    | apply Forall_cons
    | apply Forall_app; split
    | match goal with
      | |- Forall _ (if ?b then _ else _) => destruct b
      | |- Forall _ (weight_log ?fs) => unfold weight_log
      | |- Forall _ (snd (make_missing _ _)) =>
          apply make_missing_events; intros
      | |- Forall _ (closing ?r) => unfold closing; destruct r
      | |- Forall _ (match ?h with
                     | SingleProcess _ => _
                     | Launched _ _ _ => _
                     end) => destruct h
      end ];
  cbn; auto.

(** ** C4: drop-last *)

Lemma pass_sizes_ragged (xs : list nat) (b : Z) (dl : bool) (k r : nat) :
  (0 < r < Z.to_nat b)%nat ->
  length xs = (Z.to_nat b * k + r)%nat ->
  pass_sizes (loader_of xs b dl)
  = repeat (Z.to_nat b) k ++ (if dl then [] else [r]).
Proof.
  intros Hr Hlen. unfold pass_sizes.
  rewrite batches_sizes by (cbn; lia).
  cbn [loader_of Loader.dl_batch_size Loader.dl_drop_last Loader.dl_sampler].
  rewrite Hlen. apply sizes_ragged. exact Hr.
Qed.

(** C4.  With a batch size [B] and samplers over [B*k + r] samples,
    [0 < r < B], the training loader that [drop_last=True] builds yields
    exactly [k] batches, all of size [B], the validation loader that
    [drop_last=False] builds yields those and a last one of size [r], and
    every training and validation pass of a run of the Anime or the
    Food101 program iterates exactly these. *)
Theorem drop_last_policy (args : Args) (env : Env) (k r : nat) (fs : FS) :
  (0 < r < Z.to_nat (batch_size args))%nat ->
  length (train_set env) = (Z.to_nat (batch_size args) * k + r)%nat ->
  length (val_set env) = (Z.to_nat (batch_size args) * k + r)%nat ->
  let B := Z.to_nat (batch_size args) in
  let tl := loader_of (train_set env) (batch_size args) true in
  let vl := loader_of (val_set env) (batch_size args) false in
  outcome (Food101.load_data args env fs) = Ret (tl, vl) /\
  pass_sizes tl = repeat B k /\
  pass_sizes vl = repeat B k ++ [r] /\
  Forall (pass_shape B k r) (log (Anime.main args env fs)) /\
  Forall (pass_shape B k r) (log (Food101.main args env fs)).
Proof.
  intros Hr Ht Hv B tl vl.
  assert (Htl : pass_sizes tl = repeat B k).
  { unfold tl. rewrite (pass_sizes_ragged _ _ true k r Hr Ht).
    apply app_nil_r. }
  assert (Hvl : pass_sizes vl = repeat B k ++ [r]).
  { unfold vl. apply (pass_sizes_ragged _ _ false k r Hr Hv). }
  split; [reflexivity|]. split; [exact Htl|]. split; [exact Hvl|].
  split.
  - rewrite anime_main_run.
    destruct (apex args && negb (amp_available env)); [events|].
    destruct (evaluate args); [destruct (readable env _)|]; cbn [log snd].
    + unfold AnimeRun.setup. events.
    + unfold AnimeRun.setup. events.
    + unfold AnimeRun.setup, AnimeRun.wrapping. events.
      apply for_each_Forall. intros x s fs'.
      rewrite anime_body_run. cbv zeta. unfold passes.
      destruct (_ >? _); [destruct (dir_exists _ _)|]; events.
  - rewrite food101_main_run.
    destruct (apex args && negb (amp_available env)); [events|].
    destruct (evaluate args);
      [destruct (readable env _) | destruct (Food101Run.resumable args env)];
      cbn [log snd].
    + unfold Food101Run.setup, Food101Run.out_log. events.
    + unfold Food101Run.setup, Food101Run.out_log. events.
    + unfold Food101Run.setup, Food101Run.out_log, Food101Run.wrapping,
        Food101Run.resuming.
      events.
      apply for_each_Forall. intros x s fs'.
      rewrite food101_body_run. cbv zeta. unfold passes.
      destruct (_ >? _);
        [destruct (dir_exists _ _); [destruct (dir_exists _ _)|]|]; events.
    + unfold Food101Run.setup, Food101Run.out_log, Food101Run.wrapping.
      events.
Qed.

Lemma drop_last_policy_witness :
  pass_sizes (loader_of (seq 0 5) 2 true) = [2; 2]%nat /\
  pass_sizes (loader_of (seq 0 5) 2 false) = [2; 2; 1]%nat.
Proof.
  pose proof (drop_last_policy Sample.args Sample.env 2 1 []) as H.
  cbv zeta in H.
  destruct H as (_ & Ht & Hv & _); [cbn; lia | reflexivity | reflexivity |].
  split; [exact Ht | exact Hv].
Defined.

(** ** C5: the mixed-precision gate *)

(** C5.  When mixed precision is requested and apex could not be
    imported, each of the three programs raises [RuntimeError] having
    only seeded the random sources: no data loader, model, optimizer,
    device or process group has been constructed.  When mixed precision
    is not requested, the model and the optimizer pass through the
    precision wrapper unchanged, with no call made. *)
Theorem mixed_precision_fail_fast (args : Args) (env : Env) (fs : FS) :
  (apex args = true -> amp_available env = false ->
   Anime.main args env fs
     = (Raise RuntimeError, fs, [SeedEverything (seed args)]) /\
   Food101.main args env fs
     = (Raise RuntimeError, fs, [SeedEverything (seed args)]) /\
   Distributed.main args env fs
     = (Raise RuntimeError, fs, [SeedEverything (seed args); GetWorkerInit]))
  /\
  (apex args = false ->
   forall (m : nnmodule) (o : optimizer),
     precision_wrap args m o fs = (Ret (m, o), fs, [])).
Proof.
  split.
  - intros Hapex Hamp.
    rewrite anime_main_run, food101_main_run, distributed_main_run.
    rewrite Hapex, Hamp. cbn [andb negb]. repeat split.
  - intros Hapex m o. unfold precision_wrap. rewrite Hapex. reflexivity.
Qed.

Lemma mixed_precision_fail_fast_witness :
  outcome (Anime.main (Sample.with_apex Sample.args) Sample.env [])
    = Raise RuntimeError /\
  outcome (precision_wrap Sample.args Net SGD []) = Ret (Net, SGD).
Proof.
  destruct (mixed_precision_fail_fast (Sample.with_apex Sample.args)
              Sample.env []) as [Hfail _].
  destruct (mixed_precision_fail_fast Sample.args Sample.env [])
    as [_ Hpass].
  destruct (Hfail eq_refl eq_refl) as (Ha & _).
  split.
  - rewrite Ha. reflexivity.
  - rewrite (Hpass eq_refl). reflexivity.
Defined.

(** ** C10: per-process batch size and worker count *)

Lemma quot_floor (a n : Z) : 0 <= a -> 0 < n -> Z.quot a n = a / n.
Proof. intros Ha Hn. apply Z.quot_div_nonneg; lia. Qed.

Lemma quot_ceiling (w n : Z) :
  0 <= w -> 0 < n ->
  (Z.quot (w + n - 1) n - 1) * n < w <= Z.quot (w + n - 1) n * n.
Proof.
  intros Hw Hn. rewrite quot_floor by lia.
  pose proof (Z.div_mod (w + n - 1) n ltac:(lia)) as Hdm.
  pose proof (Z.mod_pos_bound (w + n - 1) n Hn) as Hb.
  nia.
Qed.

Lemma distributed_loop_no_loader args env m tl vl P :
  (forall e it bs, P (TrainPass e it bs)) ->
  (forall it bs, P (ValidatePass it bs)) ->
  (forall e, P (SetEpoch e)) ->
  (forall p o, P (TorchSave p o)) ->
  P SchedulerStep ->
  forall xs s fs,
    Forall P (log (for_each xs (Distributed.epoch_body args env m tl vl) s fs)).
Proof.
  intros Ht Hv He Hs Hst. apply for_each_Forall. intros x s fs.
  rewrite distributed_body_run. cbv zeta. unfold passes.
  destruct (_ && _); [destruct (dir_exists _ _)|]; events.
Qed.

(** C10.  For a batch size and a worker count that are counts (not
    negative, and below 2^53, where the float quotient is exact) and at
    least one GPU per node: in a distributed run the per-process batch
    size is the floor of [batch_size / ngpus_per_node], which is 0 when
    the configured batch size is below the GPU count, and the per-process
    worker count is the ceiling of [workers / ngpus_per_node]; outside a
    distributed run both are left as configured; and the two data
    loaders of a run are constructed with the values so obtained. *)
Theorem per_process_sizes (args : Args) (ngpus : Z) (fs : FS) :
  0 < ngpus ->
  0 <= batch_size args < 2 ^ 53 ->
  0 <= workers args -> workers args + ngpus - 1 < 2 ^ 53 ->
  (distributed args = true ->
   exists args',
     Distributed.per_process args ngpus fs = (Ret args', fs, []) /\
     batch_size args' = batch_size args / ngpus /\
     (workers args' - 1) * ngpus < workers args <= workers args' * ngpus /\
     (batch_size args < ngpus -> batch_size args' = 0)) /\
  (distributed args = false ->
   Distributed.per_process args ngpus fs = (Ret args, fs, [])) /\
  (forall env : Env,
     cuda_device_count (host env) = ngpus ->
     exists b w,
       Forall (loader_built_with b w) (log (Distributed.main args env fs)) /\
       match host env with
       | SingleProcess _ => b = batch_size args /\ w = workers args
       | Launched _ _ _ =>
           b = batch_size args / ngpus /\
           (w - 1) * ngpus < workers args <= w * ngpus
       end).
Proof.
  intros Hn Hb Hw Hw'.
  split; [|split].
  - intros Hd. unfold Distributed.per_process, Py.int_truediv.
    rewrite Hd. replace (ngpus =? 0) with false by (symmetry; lia).
    eexists. split; [reflexivity|]. cbn.
    split; [apply quot_floor; lia|].
    split; [apply quot_ceiling; lia|].
    intros Hlt. apply Z.quot_small. lia.
  - intros Hd. unfold Distributed.per_process. rewrite Hd. reflexivity.
  - intros env Hcount.
    exists (batch_size (DistributedRun.configured args env)),
           (workers (DistributedRun.configured args env)).
    split.
    + rewrite distributed_main_run.
      destruct (apex args && negb (amp_available env)); [events|].
      destruct (evaluate args); [destruct (readable env _)|]; cbn [log snd].
      * unfold DistributedRun.setup, DistributedRun.joining. events.
      * unfold DistributedRun.setup, DistributedRun.joining. events.
      * unfold DistributedRun.setup, DistributedRun.joining. events.
        apply distributed_loop_no_loader; cbn; auto.
    + unfold DistributedRun.configured, DistributedRun.initialised,
        DistributedRun.ngpus_per_node.
      rewrite Hcount.
      destruct (host env) as [n|r n g]; cbn.
      * split; reflexivity.
      * split; [apply quot_floor; lia | apply quot_ceiling; lia].
Qed.

Lemma per_process_sizes_witness :
  exists args',
    Distributed.per_process
      (set_distributed true 1 2 1 (set_batch_size 3 Sample.args)) 4 []
    = (Ret args', [], []) /\
    batch_size args' = 0 /\ workers args' = 1.
Proof.
  destruct (per_process_sizes
              (set_distributed true 1 2 1 (set_batch_size 3 Sample.args)) 4 [])
    as [Hd _]; [lia | cbn; lia | cbn; lia | cbn; lia |].
  destruct (Hd eq_refl) as (args' & Hrun & Hbs & Hws & Hzero).
  exists args'. split; [exact Hrun|].
  split; [apply Hzero; cbn; lia|].
  cbn in Hws. lia.
Defined.

(** ** C1: select-best *)

(** The loops of the Anime and the Distributed program assign the
    maximum to [best_acc1] and never reassign [best_acc]. *)
Lemma anime_best_acc_constant env m tl vl :
  forall es st fs st',
    outcome (for_each es (Anime.epoch_body env m tl vl) st fs) = Ret st' ->
    Anime.best_acc st' = Anime.best_acc st.
Proof.
  induction es as [|e es IH]; intros st fs st' Hrun.
  - cbn in Hrun. injection Hrun as <-. reflexivity.
  - rewrite for_each_cons, anime_body_run in Hrun. cbv zeta in Hrun.
    destruct (_ >? _); [destruct (dir_exists _ _)|];
      cbn [outcome fst] in Hrun; try discriminate;
      apply IH in Hrun; exact Hrun.
Qed.

Lemma distributed_best_acc_constant args env m tl vl :
  forall es st fs st',
    outcome (for_each es (Distributed.epoch_body args env m tl vl) st fs)
      = Ret st' ->
    Distributed.best_acc st' = Distributed.best_acc st.
Proof.
  induction es as [|e es IH]; intros st fs st' Hrun.
  - cbn in Hrun. injection Hrun as <-. reflexivity.
  - rewrite for_each_cons, distributed_body_run in Hrun. cbv zeta in Hrun.
    destruct (_ && _); [destruct (dir_exists _ _)|];
      cbn [outcome fst] in Hrun; try discriminate;
      apply IH in Hrun; exact Hrun.
Qed.

(** The loop of the Food101 program does reassign it. *)
Lemma food101_best_acc_is_max args env m o s tl vl :
  forall es st fs st',
    outcome (for_each es (Food101.epoch_body args env m o s tl vl) st fs)
      = Ret st' ->
    Food101.best_acc st'
    = fold_left (fun b e => Z.max b (val_acc env e)) es (Food101.best_acc st).
Proof.
  induction es as [|e es IH]; intros st fs st' Hrun.
  - cbn in Hrun. injection Hrun as <-. reflexivity.
  - rewrite for_each_cons, food101_body_run in Hrun. cbv zeta in Hrun.
    cbn [fold_left].
    assert (Hmax : Py.max (val_acc env e) (Food101.best_acc st)
                   = Z.max (Food101.best_acc st) (val_acc env e)).
    { unfold Py.max.
      destruct (Z.gtb_spec (Food101.best_acc st) (val_acc env e)); lia. }
    destruct (_ >? _);
      [destruct (dir_exists _ _); [destruct (dir_exists _ _)|]|];
      cbn [outcome fst] in Hrun; try discriminate;
      apply IH in Hrun; rewrite Hrun; cbn [Food101.best_acc];
      rewrite Hmax; reflexivity.
Qed.

(** C1.  Two epochs with validation accuracy 50 and then 30: the loops
    of the Anime and of the Distributed program end with [best_acc]
    still 0, and both write the best-weights file again after the second
    validation pass, whose accuracy is below that of the first. *)
Theorem best_score_not_tracked :
  outcome (AnimeRun.loop Sample.args Sample.env [])
    = Ret {| Anime.iteration := 4; Anime.best_acc := 0;
             Anime.best_acc1 := Some 30 |} /\
  filter (fun ev => is_validate_pass ev || is_save ev)
         (log (Anime.main Sample.args Sample.env []))
    = [ValidatePass 2 [2; 2; 1]%nat;
       TorchSave Anime.saved_weight (StateDict Net);
       ValidatePass 4 [2; 2; 1]%nat;
       TorchSave Anime.saved_weight (StateDict Net)] /\
  outcome (DistributedRun.loop Sample.args Sample.env [])
    = Ret {| Distributed.iteration := 4; Distributed.best_acc := 0;
             Distributed.best_acc1 := Some 30 |} /\
  filter (fun ev => is_validate_pass ev || is_save ev)
         (log (Distributed.main Sample.args Sample.env []))
    = [ValidatePass 2 [2; 2; 1]%nat;
       TorchSave Distributed.saved_weight (StateDict Net);
       ValidatePass 4 [2; 2; 1]%nat;
       TorchSave Distributed.saved_weight (StateDict Net)].
Proof. repeat split; vm_compute; reflexivity. Qed.

(** On the same input the Food101 program tracks the maximum and writes
    once. *)
Example food101_tracks_best :
  outcome (Food101Run.loop Sample.args Sample.env [])
    = Ret {| Food101.iteration := 4; Food101.best_acc := 50 |} /\
  count is_save (log (Food101.main Sample.args Sample.env [])) = 2%nat /\
  count is_bundle_save (log (Food101.main Sample.args Sample.env [])) = 1%nat.
Proof. repeat split; vm_compute; reflexivity. Qed.

(** ** C2: resuming *)

(** C2.  The resume block reloads the three states, sets the start epoch
    to the checkpoint's epoch plus one and the best accuracy to the
    checkpoint's, and sets the iteration counter to [args.epochs], the
    epoch count of the whole run, times the batches of an epoch.  With 5
    epochs in all, a checkpoint of epoch 3 and 2 batches an epoch, the
    training pass of epoch 4 starts at iteration 10, where 3 * 2 = 6
    iterations had been completed. *)
Theorem resume_iteration_counter :
  (forall args env m tl fs,
     Food101.resume_run args env m tl fs
     = (Ret (set_start_epoch (ck_epoch (saved_checkpoint env) + 1) args,
             {| Food101.iteration :=
                  epochs args * Z.of_nat (Loader.len tl);
                Food101.best_acc := ck_best_acc (saved_checkpoint env) |}),
        fs,
        [TorchLoad (path_str (Food101.checkpoint_name args));
         LoadStateDict (ModelState m);
         LoadStateDict OptimizerState; LoadStateDict SchedulerState])) /\
  filter is_train_pass
         (log (Food101.main (Sample.with_restart 5 Sample.args) Sample.env []))
    = [TrainPass 4 10 [2; 2]%nat; TrainPass 5 12 [2; 2]%nat].
Proof.
  split.
  - intros. reflexivity.
  - vm_compute. reflexivity.
Qed.

(** ** C9: output directories *)

Lemma anime_loop_total env m tl vl :
  forall es st fs,
    dir_exists "weight" fs = true ->
    exists st',
      outcome (for_each es (Anime.epoch_body env m tl vl) st fs) = Ret st' /\
      dirs_after (for_each es (Anime.epoch_body env m tl vl) st fs) = fs.
Proof.
  induction es as [|e es IH]; intros st fs Hdir.
  - exists st. split; reflexivity.
  - rewrite for_each_cons, anime_body_run. cbv zeta. rewrite Hdir.
    destruct (_ >? _); cbn [outcome dirs_after fst snd]; apply IH; exact Hdir.
Qed.

Lemma distributed_loop_total args env m tl vl :
  forall es st fs,
    dir_exists "weight" fs = true ->
    exists st',
      outcome (for_each es (Distributed.epoch_body args env m tl vl) st fs)
        = Ret st' /\
      dirs_after (for_each es (Distributed.epoch_body args env m tl vl) st fs)
        = fs.
Proof.
  induction es as [|e es IH]; intros st fs Hdir.
  - exists st. split; reflexivity.
  - rewrite for_each_cons, distributed_body_run. cbv zeta. rewrite Hdir.
    destruct (_ && _); cbn [outcome dirs_after fst snd]; apply IH; exact Hdir.
Qed.

Lemma food101_loop_total args env m o s tl vl :
  forall es st fs,
    dir_exists "weight" fs = true ->
    dir_exists (path2weight args) fs = true ->
    exists st',
      outcome (for_each es (Food101.epoch_body args env m o s tl vl) st fs)
        = Ret st' /\
      dirs_after (for_each es (Food101.epoch_body args env m o s tl vl) st fs)
        = fs.
Proof.
  induction es as [|e es IH]; intros st fs Hdir Hout.
  - exists st. split; reflexivity.
  - rewrite for_each_cons, food101_body_run. cbv zeta. rewrite Hdir, Hout.
    destruct (_ >? _); cbn [outcome dirs_after fst snd]; apply IH; assumption.
Qed.

(** The programs that write under ['weight'] only have created it: they
    end as they should whatever directories there were. *)
Lemma weight_writes_succeed (args : Args) (env : Env) (fs : FS) :
  apex args && negb (amp_available env) = false ->
  evaluate args = false ->
  outcome (Anime.main args env fs) = Ret tt /\
  outcome (Distributed.main args env fs) = Ret tt.
Proof.
  intros Hgate Hev. rewrite anime_main_run, distributed_main_run.
  rewrite Hgate, Hev. cbn [outcome fst].
  unfold AnimeRun.loop, DistributedRun.loop. split.
  - edestruct anime_loop_total as (st' & -> & _);
      [apply weight_dirs_exists | reflexivity].
  - edestruct distributed_loop_total as (st' & -> & _);
      [apply weight_dirs_exists | reflexivity].
Qed.

(** C9.  The Food101 program creates [args.path2weight] and writes the
    resume checkpoint under ['weight']: started with
    [path2weight = 'out'] where no directory exists, it creates ['out']
    only, writes the best weights there after the first epoch and then
    fails to open the checkpoint file. *)
Theorem checkpoint_directory_not_created :
  let run := Food101.main (Sample.with_path2weight "out" Sample.args)
                          Sample.env [] in
  outcome run = Raise (FileNotFoundError "weight") /\
  dirs_after run = ["out"%string] /\
  filter is_save (log run)
    = [TorchSave {| pdir := "out"; pfile := "food101_mobilenetv2_best.pth" |}
                 (StateDict Net)].
Proof. repeat split; vm_compute; reflexivity. Qed.

(** An output directory under ['weight']: [os.makedirs] creates both,
    and the run of the sample configuration ends normally. *)
Example nested_output_directory :
  let run := Food101.main (Sample.with_path2weight "weight/food101"
                                                   Sample.args)
                          Sample.env [] in
  outcome run = Ret tt /\
  dirs_after run = ["weight/food101"%string; "weight"%string] /\
  count is_save (log run) = 2%nat.
Proof. repeat split; vm_compute; reflexivity. Qed.

(** ** C6: evaluate-only mode *)

(** Counterexample to C6 as stated: evaluate-only mode requested
    together with mixed precision where apex is missing.  The Anime
    program raises at the gate and makes no validation pass. *)
Lemma evaluate_only_behind_gate :
  let args := Sample.with_evaluate (Sample.with_apex Sample.args) in
  evaluate args = true /\
  outcome (Anime.main args Sample.env []) = Raise RuntimeError /\
  ~ evaluates_only (resume args) (Anime.main args Sample.env []).
Proof.
  cbv zeta. split; [reflexivity|]. split; [reflexivity|].
  intros ([Hout | Hout] & _); vm_compute in Hout; discriminate Hout.
Qed.

(** Nor is there a validation pass where the weights file is missing:
    past the gate, the Anime and the Food101 program and the Distributed
    program all end with the [FileNotFoundError] of [torch.load]. *)
Lemma evaluate_only_without_weights :
  let args := Sample.with_evaluate Sample.args in
  let env := Sample.env_without_files in
  (outcome (Anime.main args env ["weight"%string])
     = Raise (FileNotFoundError "weight/AnimeFace_resnet18_best.pth") /\
   count is_validate_pass (log (Anime.main args env ["weight"%string]))
     = 0%nat) /\
  (outcome (Distributed.main args env ["weight"%string])
     = Raise (FileNotFoundError "weight/AnimeFace_resnet18_best.pth") /\
   count is_validate_pass (log (Distributed.main args env ["weight"%string]))
     = 0%nat) /\
  (outcome (Food101.main args env ["weight"%string])
     = Raise (FileNotFoundError "weight/food101_mobilenetv2_best.pth") /\
   count is_validate_pass (log (Food101.main args env ["weight"%string]))
     = 0%nat).
Proof. repeat split; vm_compute; reflexivity. Qed.

(** C6, amended.  With evaluate-only mode set in a configuration that
    passes the mixed-precision gate, with a startup that raises nothing
    (arguments the constructors of the data loaders accept; in a process
    group, a rank of the group and ['weight'] in place; for the Food101
    program, an output directory [os.makedirs] can make) and with the
    weights file in place, each program loads the weights file (the
    Food101 program its own best-weights file) into the unwrapped model,
    then makes exactly one validation pass and ends, with no training
    pass, no optimizer step, no scheduler and no write. *)
Theorem evaluate_only_short_circuit (args : Args) (env : Env) (fs : FS) :
  evaluate args = true ->
  apex args && negb (amp_available env) = false ->
  (loaders_accepted args env ->
   readable env (resume args) = true ->
   evaluates_only (resume args) (Anime.main args env fs)) /\
  (distributed_start_accepted args env fs ->
   readable env (resume args) = true ->
   evaluates_only (resume args) (Distributed.main args env fs)) /\
  (names_accepted args ->
   loaders_accepted args env ->
   readable env (path_str (Food101.weight_name args)) = true ->
   evaluates_only (path_str (Food101.weight_name args))
                  (Food101.main args env fs)).
Proof.
  intros Hev Hgate.
  rewrite anime_main_run, distributed_main_run, food101_main_run.
  rewrite Hev, Hgate.
  unfold evaluates_only.
  split; [|split]; [intros _ -> | intros _ -> | intros _ _ ->];
    cbn [outcome log fst snd].
  - split; [left; reflexivity|].
    assert (Hsetup : forall p,
               p SummaryWriter = false -> p TorchDevice = false ->
               (forall d, p (Mkdir d) = false) ->
               (forall s, p (SeedEverything s) = false) ->
               (forall t b w d, p (NewDataLoader t b w d) = false) ->
               p NewModel = false -> p NewCriterion = false ->
               p NewOptimizer = false ->
               Forall (fun ev => p ev = false) (AnimeRun.setup args fs))
      by (intros; unfold AnimeRun.setup; events).
    split.
    + exists Net, (AnimeRun.setup args fs).
      eexists. split; [reflexivity|]. split; [reflexivity|]. split.
      * apply count_none, Hsetup; reflexivity.
      * destruct (AnimeRun.multigpu env); reflexivity.
    + repeat split;
        [ apply count_none | apply optimizer_steps_none
        | apply count_none | apply count_none ];
        (apply Forall_app; split; [apply Hsetup; reflexivity|]);
        destruct (AnimeRun.multigpu env); events.
  - split; [right; reflexivity|].
    assert (Hsetup : forall p,
               p SummaryWriter = false -> p TorchDevice = false ->
               p GetWorkerInit = false ->
               (forall d, p (Mkdir d) = false) ->
               (forall s, p (SeedEverything s) = false) ->
               (forall r n, p (InitProcessGroup r n) = false) ->
               (forall t b w d, p (NewDataLoader t b w d) = false) ->
               p NewModel = false -> p NewCriterion = false ->
               p NewOptimizer = false -> p AmpInitialize = false ->
               p NewDistributedDataParallel = false ->
               Forall (fun ev => p ev = false)
                      (DistributedRun.setup args env fs))
      by (intros; unfold DistributedRun.setup, DistributedRun.joining;
          events).
    split.
    + exists (DistributedRun.model args), (DistributedRun.setup args env fs).
      eexists. split; [|split; [reflexivity|split]].
      * unfold DistributedRun.model. destruct (apex args); reflexivity.
      * apply count_none, Hsetup; reflexivity.
      * reflexivity.
    + repeat split;
        [ apply count_none | apply optimizer_steps_none
        | apply count_none | apply count_none ];
        (apply Forall_app; split; [apply Hsetup; reflexivity|]); events.
  - split; [left; reflexivity|].
    assert (Hsetup : forall p,
               p SummaryWriter = false -> p TorchDevice = false ->
               p GetWorkerInit = false ->
               (forall d, p (Mkdir d) = false) ->
               (forall s, p (SeedEverything s) = false) ->
               (forall t b w d, p (NewDataLoader t b w d) = false) ->
               p NewModel = false -> p NewCriterion = false ->
               p NewOptimizer = false ->
               Forall (fun ev => p ev = false) (Food101Run.setup args fs))
      by (intros; unfold Food101Run.setup, Food101Run.out_log; events).
    split.
    + exists Net, (Food101Run.setup args fs).
      eexists. split; [reflexivity|]. split; [reflexivity|]. split.
      * apply count_none, Hsetup; reflexivity.
      * destruct (Food101Run.multigpu env); reflexivity.
    + repeat split;
        [ apply count_none | apply optimizer_steps_none
        | apply count_none | apply count_none ];
        (apply Forall_app; split; [apply Hsetup; reflexivity|]);
        destruct (Food101Run.multigpu env); events.
Qed.

(** The sample configuration in evaluate-only mode, with the weights
    file in its directory. *)
Lemma evaluate_only_short_circuit_witness :
  evaluates_only (resume (Sample.with_evaluate Sample.args))
                 (Anime.main (Sample.with_evaluate Sample.args) Sample.env
                             ["weight"%string]) /\
  evaluates_only (resume (Sample.with_evaluate Sample.args))
                 (Distributed.main (Sample.with_evaluate Sample.args)
                                   Sample.env ["weight"%string]).
Proof.
  destruct (evaluate_only_short_circuit (Sample.with_evaluate Sample.args)
              Sample.env ["weight"%string]) as (Ha & Hd & _);
    [reflexivity | reflexivity |].
  split.
  - apply Ha; [|reflexivity].
    split; [reflexivity|]. split; discriminate.
  - apply Hd; [|reflexivity].
    split; [exact I|]. split; [cbn; lia|].
    split; [reflexivity|]. split; discriminate.
Defined.

(** ** C7: the sampler is told the epoch *)

Lemma no_train_notified (l : list event) :
  Forall (fun ev => is_train_pass ev = false) l -> sampler_notified l.
Proof.
  intros Hall l1 e it bs l2 ->.
  apply Forall_app in Hall. destruct Hall as [_ Hall].
  inversion Hall as [|? ? Hhead _]. discriminate Hhead.
Qed.

Lemma notified_nil : sampler_notified [].
Proof. apply no_train_notified. constructor. Qed.

Lemma notified_app (l l' : list event) :
  sampler_notified l -> sampler_notified l' -> sampler_notified (l ++ l').
Proof.
  intros Hl Hl' l1 e it bs l2 Heq.
  apply app_eq_app in Heq. destruct Heq as (mid & [[-> Hr] | [-> Hr]]).
  - destruct mid as [|x mid].
    + cbn in Hr. symmetry in Hr.
      destruct (Hl' [] e it bs l2 Hr) as (l0 & Hnil).
      destruct l0; discriminate Hnil.
    + cbn in Hr. injection Hr as <- ->.
      exact (Hl l1 e it bs mid eq_refl).
  - destruct (Hl' mid e it bs l2 Hr) as (l0 & ->).
    exists (l ++ l0). apply app_assoc.
Qed.

Lemma notified_round (e it : Z) (bs : list nat) (rest : list event) :
  Forall (fun ev => is_train_pass ev = false) rest ->
  sampler_notified (SetEpoch e :: TrainPass e it bs :: rest).
Proof.
  intros Hrest.
  change (sampler_notified ([SetEpoch e; TrainPass e it bs] ++ rest)).
  apply notified_app; [|apply no_train_notified; exact Hrest].
  intros l1 e' it' bs' l2 Heq.
  destruct l1 as [|x [|y l1]]; cbn in Heq.
  - discriminate Heq.
  - injection Heq as <- <- <- <- <-. exists []. reflexivity.
  - injection Heq as _ _ Heq. destruct l1; discriminate Heq.
Qed.

Lemma launched_is_distributed args env r n g :
  host env = Launched r n g ->
  distributed (DistributedRun.configured args env) = true.
Proof.
  intros Hhost. unfold DistributedRun.configured, DistributedRun.initialised.
  rewrite Hhost. reflexivity.
Qed.

Lemma single_is_not_distributed args env n :
  host env = SingleProcess n ->
  distributed (DistributedRun.configured args env) = false.
Proof.
  intros Hhost. unfold DistributedRun.configured, DistributedRun.initialised.
  rewrite Hhost. reflexivity.
Qed.

Lemma distributed_loop_notifies args env m tl vl e :
  distributed args = true ->
  forall es st fs,
    dir_exists "weight" fs = true ->
    In e es ->
    exists l1 it bs l2,
      log (for_each es (Distributed.epoch_body args env m tl vl) st fs)
      = l1 ++ SetEpoch e :: TrainPass e it bs :: l2.
Proof.
  intros Hd. induction es as [|x es IH]; intros st fs Hdir Hin; [easy|].
  rewrite for_each_cons, distributed_body_run, Hd, Hdir. cbv zeta.
  unfold passes.
  destruct Hin as [-> | Hin].
  - exists [], (Distributed.iteration st), (pass_sizes tl).
    destruct (_ && _); cbn [log snd app]; eexists; reflexivity.
  - destruct (_ && _); cbn [log snd];
      match goal with
      | |- context [for_each es ?b ?s ?f] =>
          destruct (IH s f Hdir Hin) as (l1 & it & bs & l2 & ->)
      end;
      match goal with
      | |- exists _ _ _ _, ?round ++ _ = _ =>
          exists (round ++ l1), it, bs, l2; apply app_assoc
      end.
Qed.

Lemma distributed_main_notifies args env fs r n g :
  host env = Launched r n g ->
  apex args && negb (amp_available env) = false ->
  evaluate args = false ->
  forall e,
    In e (Py.range 1 (epochs args + 1)) ->
    exists l1 it bs l2,
      log (Distributed.main args env fs)
      = l1 ++ SetEpoch e :: TrainPass e it bs :: l2.
Proof.
  intros Hhost Hgate Hev e He.
  rewrite distributed_main_run, Hgate, Hev. cbn [log snd].
  pose proof (launched_is_distributed args env r n g Hhost) as Hd.
  destruct (distributed_loop_notifies
              (DistributedRun.configured args env) env
              (DistributedRun.model args)
              (DistributedRun.train_loader args env)
              (DistributedRun.val_loader args env) e Hd
              (Py.range 1 (epochs args + 1))
              {| Distributed.iteration := 0;
                 Distributed.best_acc := 0;
                 Distributed.best_acc1 := None |}
              (weight_dirs fs) (weight_dirs_exists fs) He)
    as (l1 & it & bs & l2 & Hlog).
  fold (DistributedRun.loop args env fs) in Hlog.
  set (before := DistributedRun.setup args env fs).
  set (after := closing (outcome (DistributedRun.loop args env fs))).
  set (sched := [NewScheduler _]).
  rewrite Hlog.
  exists (before ++ sched ++ l1), it, bs, (l2 ++ after).
  rewrite <- !app_assoc. reflexivity.
Qed.

(** C7.  In a run of the Distributed program by a process launched in a
    group, every training pass of an epoch [e] comes right after the
    call [train_sampler.set_epoch(e)], and when the run gets to its
    epoch loop every epoch [e] from 1 to [args.epochs] has that call
    followed by its training pass; in a run by a single process, and in
    every run of the other two programs, [set_epoch] is never called. *)
Theorem set_epoch_before_training (args : Args) (env : Env) (fs : FS) :
  match host env with
  | Launched _ _ _ =>
      sampler_notified (log (Distributed.main args env fs)) /\
      (apex args && negb (amp_available env) = false ->
       evaluate args = false ->
       forall e,
         In e (Py.range 1 (epochs args + 1)) ->
         exists l1 it bs l2,
           log (Distributed.main args env fs)
           = l1 ++ SetEpoch e :: TrainPass e it bs :: l2)
  | SingleProcess _ =>
      Forall (fun ev => is_set_epoch ev = false)
             (log (Distributed.main args env fs))
  end /\
  Forall (fun ev => is_set_epoch ev = false) (log (Anime.main args env fs)) /\
  Forall (fun ev => is_set_epoch ev = false) (log (Food101.main args env fs)).
Proof.
  split; [|split].
  - destruct (host env) as [n|r n g] eqn:Hhost.
    + rewrite distributed_main_run.
      pose proof (single_is_not_distributed args env n Hhost) as Hd.
      destruct (apex args && negb (amp_available env)); [events|].
      destruct (evaluate args); [destruct (readable env _)|]; cbn [log snd];
        unfold DistributedRun.setup, DistributedRun.joining;
        rewrite Hhost, Hd; events.
      apply for_each_Forall. intros x s fs'.
      rewrite distributed_body_run, Hd. cbv zeta. unfold passes.
      destruct (_ && _); [destruct (dir_exists _ _)|]; events.
    + pose proof (launched_is_distributed args env r n g Hhost) as Hd.
      split;
        [|exact (distributed_main_notifies args env fs r n g Hhost)].
      rewrite distributed_main_run.
      destruct (apex args && negb (amp_available env));
        [apply no_train_notified; events|].
      destruct (evaluate args); [destruct (readable env _)|]; cbn [log snd];
        unfold DistributedRun.setup, DistributedRun.joining;
        rewrite Hhost, Hd.
      * apply no_train_notified. events.
      * apply no_train_notified. events.
      * repeat first
          [ apply notified_app
          | apply (for_each_log sampler_notified notified_nil notified_app) ].
        -- apply no_train_notified. events.
        -- apply no_train_notified. events.
        -- intros x s fs'.
           rewrite distributed_body_run, Hd. cbv zeta. unfold passes.
           destruct (_ && _); [destruct (dir_exists _ _)|];
             cbn [log snd app]; apply notified_round; events.
        -- apply no_train_notified. events.
  - rewrite anime_main_run.
    destruct (apex args && negb (amp_available env)); [events|].
    destruct (evaluate args); [destruct (readable env _)|]; cbn [log snd].
    + unfold AnimeRun.setup. events.
    + unfold AnimeRun.setup. events.
    + unfold AnimeRun.setup, AnimeRun.wrapping. events.
      apply for_each_Forall. intros x s fs'.
      rewrite anime_body_run. cbv zeta. unfold passes.
      destruct (_ >? _); [destruct (dir_exists _ _)|]; events.
  - rewrite food101_main_run.
    destruct (apex args && negb (amp_available env)); [events|].
    destruct (evaluate args);
      [destruct (readable env _) | destruct (Food101Run.resumable args env)];
      cbn [log snd].
    + unfold Food101Run.setup, Food101Run.out_log. events.
    + unfold Food101Run.setup, Food101Run.out_log. events.
    + unfold Food101Run.setup, Food101Run.out_log, Food101Run.wrapping,
        Food101Run.resuming.
      events.
      apply for_each_Forall. intros x s fs'.
      rewrite food101_body_run. cbv zeta. unfold passes.
      destruct (_ >? _);
        [destruct (dir_exists _ _); [destruct (dir_exists _ _)|]|]; events.
    + unfold Food101Run.setup, Food101Run.out_log, Food101Run.wrapping.
      events.
Qed.

(** A launched run does train: rank 1 of 2 on a node with 2 GPUs. *)
Lemma set_epoch_before_training_witness :
  exists l1 it bs l2,
    log (Distributed.main Sample.args
           (Distributed.rank_env (fun _ => Sample.env) 2 2 1) [])
    = l1 ++ SetEpoch 2 :: TrainPass 2 it bs :: l2.
Proof.
  destruct (set_epoch_before_training Sample.args
              (Distributed.rank_env (fun _ => Sample.env) 2 2 1) [])
    as [[_ Hevery] _].
  apply Hevery; [reflexivity | reflexivity |].
  right. left. reflexivity.
Defined.

(** ** C8: only the main rank writes *)

Lemma list_sum_zero {A} (f : A -> nat) (l : list A) :
  (forall x, In x l -> f x = 0%nat) -> list_sum (map f l) = 0%nat.
Proof.
  induction l as [|x l IH]; intros Hf; [reflexivity|].
  cbn [map list_sum]. rewrite (Hf x (or_introl eq_refl)).
  apply IH. intros y Hy. apply Hf. right. exact Hy.
Qed.

Lemma list_sum_cons (a : nat) (l : list nat) :
  list_sum (a :: l) = (a + list_sum l)%nat.
Proof. reflexivity. Qed.

Lemma other_rank_is_not_main env n g r :
  r <> 0%nat ->
  Distributed.is_main_process (Distributed.rank_env env n g r) = false.
Proof.
  intros Hr. unfold Distributed.is_main_process. cbn.
  apply Nat.eqb_neq. exact Hr.
Qed.

Lemma body_saves_on_other_rank args env m tl vl e st fs :
  Distributed.is_main_process env = false ->
  Forall (fun ev => is_save ev = false)
         (log (Distributed.epoch_body args env m tl vl e st fs)).
Proof.
  intros Hmain. rewrite distributed_body_run, Hmain, andb_false_r.
  cbv zeta. unfold passes. events.
Qed.

Lemma body_saves_on_main_rank args env m tl vl e st fs :
  Distributed.is_main_process env = true ->
  Distributed.best_acc st < val_acc env e ->
  count is_save
    (log (Distributed.epoch_body args env m tl vl e st (weight_dirs fs)))
  = 1%nat.
Proof.
  intros Hmain Hbest. rewrite distributed_body_run, Hmain.
  replace (val_acc env e >? Distributed.best_acc st) with true
    by (symmetry; apply Z.gtb_lt; exact Hbest).
  rewrite weight_dirs_exists. cbv zeta. unfold passes.
  destruct (distributed args); reflexivity.
Qed.

(** C8.  In a group of [n] processes running the Distributed program,
    rank [r] on its own view of the host: a process of another rank than
    0 never calls [torch.save]; in an epoch in which the accuracy the
    main rank measures exceeds its best score, the rounds of the [n]
    ranks together write exactly once; and whatever a run saves is the
    state dict of a module that is no parallel wrapper. *)
Theorem rank_gated_save (args : Args) (env : nat -> Env) (n : nat)
        (g : positive) :
  (0 < n)%nat ->
  (forall r fs,
     r <> 0%nat ->
     count is_save
       (log (Distributed.main args (Distributed.rank_env env n g r) fs))
     = 0%nat) /\
  (forall (args' : Args) (m : nnmodule)
          (tl vl : nat -> Loader.DataLoader nat)
          (st : nat -> Distributed.RunState) (fs : nat -> FS) (e : Z),
     Distributed.best_acc (st 0%nat) < val_acc (env 0%nat) e ->
     list_sum
       (map (fun r =>
               count is_save
                 (log (Distributed.epoch_body args'
                         (Distributed.rank_env env n g r) m (tl r) (vl r)
                         e (st r) (weight_dirs (fs r)))))
            (seq 0 n))
     = 1%nat) /\
  (forall r fs,
     Forall saves_unwrapped
       (log (Distributed.main args (Distributed.rank_env env n g r) fs))).
Proof.
  intros Hn. split; [|split].
  - intros r fs Hr. apply count_none.
    rewrite distributed_main_run.
    destruct (apex args && negb _); [events|].
    destruct (evaluate args); [destruct (readable _ _)|]; cbn [log snd];
      unfold DistributedRun.setup, DistributedRun.joining; events.
    apply for_each_Forall. intros x s fs'.
    apply body_saves_on_other_rank, other_rank_is_not_main. exact Hr.
  - intros args' m tl vl st fs e Hbest.
    destruct n as [|n]; [lia|].
    cbn [seq map]. rewrite list_sum_cons.
    rewrite body_saves_on_main_rank; [| reflexivity | exact Hbest].
    rewrite list_sum_zero; [reflexivity|].
    intros r Hin. apply in_seq in Hin.
    apply count_none, body_saves_on_other_rank, other_rank_is_not_main.
    lia.
  - intros r fs. rewrite distributed_main_run.
    destruct (apex args && negb _); [events|].
    destruct (evaluate args); [destruct (readable _ _)|]; cbn [log snd];
      unfold DistributedRun.setup, DistributedRun.joining; events.
    apply for_each_Forall. intros x s fs'.
    rewrite distributed_body_run. cbv zeta. unfold passes.
    destruct (_ && _); [destruct (dir_exists _ _)|]; events.
    all: unfold DistributedRun.model; destruct (apex args); reflexivity.
Qed.

Lemma rank_gated_save_witness :
  list_sum
    (map (fun r =>
            count is_save
              (log (Distributed.epoch_body Sample.args
                      (Distributed.rank_env (fun _ => Sample.env) 3 2 r) Net
                      (loader_of (seq 0 5) 2 true)
                      (loader_of (seq 0 5) 2 false) 1
                      {| Distributed.iteration := 0;
                         Distributed.best_acc := 0;
                         Distributed.best_acc1 := None |}
                      (weight_dirs []))))
         (seq 0 3))
  = 1%nat.
Proof.
  destruct (rank_gated_save Sample.args (fun _ => Sample.env) 3 2)
    as (_ & Hone & _); [lia|].
  apply (Hone Sample.args Net (fun _ => loader_of (seq 0 5) 2 true)
              (fun _ => loader_of (seq 0 5) 2 false)
              (fun _ => {| Distributed.iteration := 0;
                           Distributed.best_acc := 0;
                           Distributed.best_acc1 := None |})
              (fun _ => [])).
  cbn. lia.
Defined.

(** ** C3: the resume checkpoint *)

(** Counterexample to C3 as stated: two epochs with accuracies 50 and
    30.  The run completes, and epoch 2 writes no resume bundle. *)
Lemma checkpoint_skipped_without_improvement :
  outcome (Food101.main Sample.args Sample.env []) = Ret tt /\
  ~ persists_every_epoch Sample.args Sample.env [].
Proof.
  split; [vm_compute; reflexivity|].
  intros Hall.
  destruct (Hall 2) as (m & o & s & b & a & Hin).
  - vm_compute. right. left. reflexivity.
  - vm_compute in Hin.
    repeat (destruct Hin as [Hin|Hin]; [discriminate Hin|]).
    exact Hin.
Qed.

Lemma py_max_improved (a b : Z) : (a >? b) = true -> Py.max a b = a.
Proof.
  intros H. apply Z.gtb_lt in H. unfold Py.max.
  destruct (Z.gtb_spec b a); [lia | reflexivity].
Qed.

Lemma py_max_kept (a b : Z) : (a >? b) = false -> Py.max a b = b.
Proof.
  intros H. unfold Py.max.
  destruct (Z.gtb_spec b a) as [Hlt|Hge]; [reflexivity|].
  destruct (Z.gtb_spec a b); [discriminate | lia].
Qed.

Lemma improvements_In (acc : Z -> Z) (e b : Z) :
  forall es best,
    In (e, b) (improvements acc best es) <->
    exists earlier later,
      es = earlier ++ e :: later /\
      b = acc e /\ best_before acc best earlier < acc e.
Proof.
  induction es as [|x es IH]; intros best; cbn [improvements].
  - split; [intros [] | intros (earlier & later & Heq & _)].
    destruct earlier; discriminate Heq.
  - destruct (Z.gtb_spec (acc x) best) as [Hgt|Hle]; split.
    + intros [Hhead | Htail].
      * injection Hhead as <- <-. exists [], es. cbn. auto.
      * apply IH in Htail. destruct Htail as (pre & post & -> & -> & Hlt).
        exists (x :: pre), post. repeat split.
        unfold best_before in *. cbn [fold_left].
        replace (Z.max best (acc x)) with (acc x) by lia. exact Hlt.
    + intros (pre & post & Heq & -> & Hlt).
      destruct pre as [|y pre]; cbn in Heq; injection Heq as <- ->.
      * left. reflexivity.
      * right. apply IH. exists pre, post. repeat split.
        unfold best_before in *. cbn [fold_left] in Hlt.
        replace (Z.max best (acc x)) with (acc x) in Hlt by lia. exact Hlt.
    + intros Htail.
      apply IH in Htail. destruct Htail as (pre & post & -> & -> & Hlt).
      exists (x :: pre), post. repeat split.
      unfold best_before in *. cbn [fold_left].
      replace (Z.max best (acc x)) with best by lia. exact Hlt.
    + intros (pre & post & Heq & -> & Hlt).
      destruct pre as [|y pre]; cbn in Heq; injection Heq as <- ->.
      * unfold best_before in Hlt. cbn in Hlt. lia.
      * apply IH. exists pre, post. repeat split.
        unfold best_before in *. cbn [fold_left] in Hlt.
        replace (Z.max best (acc x)) with best in Hlt by lia. exact Hlt.
Qed.

Section Food101Loop.
Variables (args : Args) (env : Env) (m : nnmodule) (o : optimizer)
          (s : scheduler) (tl vl : Loader.DataLoader nat).

(** What the loop writes, where both directories exist: the two files of
    every epoch that improves on the best score, and nothing else. *)
Lemma saves_of_loop :
  forall es st fs,
    dir_exists "weight" fs = true ->
    dir_exists (path2weight args) fs = true ->
    filter is_save
      (log (for_each es (Food101.epoch_body args env m o s tl vl) st fs))
    = flat_map (improvement_writes args m o s)
               (improvements (val_acc env) (Food101.best_acc st) es).
Proof.
  induction es as [|e es IH]; intros st fs Hw Ho; [reflexivity|].
  rewrite for_each_cons, food101_body_run. cbv zeta. rewrite Hw, Ho.
  cbn [improvements].
  destruct (val_acc env e >? Food101.best_acc st) eqn:Hbest;
    cbn [log snd]; rewrite filter_app; unfold passes;
    cbn [filter app is_save flat_map]; rewrite IH by assumption;
    cbn [Food101.best_acc].
  - rewrite (py_max_improved _ _ Hbest). reflexivity.
  - rewrite (py_max_kept _ _ Hbest). reflexivity.
Qed.

Lemma bundle_among_writes (e b : Z) (imps : list (Z * Z)) :
  In (bundle_write args m o s (e, b))
     (flat_map (improvement_writes args m o s) imps)
  <-> In (e, b) imps.
Proof.
  rewrite in_flat_map. split.
  - intros ([e' b'] & Hin & [Hw | [Hb | []]]).
    + discriminate Hw.
    + unfold bundle_write in Hb. cbn [fst snd] in Hb.
      injection Hb as -> ->. exact Hin.
  - intros Hin. exists (e, b). split; [exact Hin|]. right. left. reflexivity.
Qed.
End Food101Loop.

Lemma resumed_args_same (args : Args) (env : Env) :
  epochs (Food101Run.resumed_args args env) = epochs args /\
  path2weight (Food101Run.resumed_args args env) = path2weight args.
Proof.
  unfold Food101Run.resumed_args. destruct (restart args); split; reflexivity.
Qed.

Lemma resumable_run (args : Args) (env : Env) :
  (restart args = true ->
   readable env (path_str (Food101.checkpoint_name args)) = true) ->
  Food101Run.resumable args env = true.
Proof.
  intros H. unfold Food101Run.resumable.
  destruct (restart args); [rewrite H by reflexivity|]; reflexivity.
Qed.

(** What a training run of the Food101 program logs around its loop has
    no write in it. *)
Lemma food101_frame_saves (args : Args) (env : Env) (fs : FS) :
  filter is_save (Food101Run.setup args fs) = [] /\
  filter is_save (Food101Run.wrapping args env) = [] /\
  filter is_save (Food101Run.resuming args) = [].
Proof.
  repeat split; apply filter_none;
    unfold Food101Run.setup, Food101Run.out_log, Food101Run.wrapping,
      Food101Run.resuming; events.
Qed.

(** C3, amended.  A training run of the Food101 program -- past the
    mixed-precision gate, not in evaluate-only mode, with names and
    arguments that [os.makedirs], the constructors of its data loaders
    and its scheduler, which divides by its step size, accept and, where
    it resumes, with the checkpoint file in place -- that finds
    ['weight'] beside its output directory after startup ends normally,
    and what it writes is,
    for exactly the epochs of its loop whose validation accuracy
    strictly exceeds the best score before them, in their order and once
    for each, the best-weights file and right after it the resume bundle
    -- model, optimizer and scheduler state, that epoch, the new best
    score and the configuration; in the other epochs it writes
    nothing. *)
Theorem checkpoint_on_improvement (args : Args) (env : Env) (fs : FS) :
  apex args && negb (amp_available env) = false ->
  evaluate args = false ->
  names_accepted args ->
  loaders_accepted args env ->
  lr_step_size args <> 0 ->
  (restart args = true ->
   readable env (path_str (Food101.checkpoint_name args)) = true) ->
  dir_exists "weight" (Food101Run.out_dirs args fs) = true ->
  let run := Food101.main args env fs in
  let args' := Food101Run.resumed_args args env in
  let m := Food101Run.model args in
  let o := Food101Run.opt args in
  let s := Food101Run.sched args in
  let rounds := Py.range (start_epoch args') (epochs args + 1) in
  let best := Food101.best_acc (Food101Run.initial args env) in
  outcome run = Ret tt /\
  filter is_save (log run)
  = flat_map (improvement_writes args' m o s)
             (improvements (val_acc env) best rounds) /\
  (forall e b,
     In (TorchSave (Food101.checkpoint_name args') (Bundle m o s e b args'))
        (log run) <->
     exists earlier later,
       rounds = earlier ++ e :: later /\
       b = val_acc env e /\
       best_before (val_acc env) best earlier < val_acc env e).
Proof.
  intros Hgate Hev _ _ _ Hfile Hw run args' m o s rounds best.
  destruct (resumed_args_same args env) as [Hepochs Hout].
  assert (Hrun : outcome run = Ret tt /\
                 filter is_save (log run)
                 = flat_map (improvement_writes args' m o s)
                     (improvements (val_acc env) best rounds)).
  { unfold run. rewrite food101_main_run, Hgate, Hev.
    rewrite (resumable_run args env Hfile).
    cbn [outcome log fst snd].
    destruct (food101_frame_saves args env fs) as (Hs1 & Hs2 & Hs3).
    rewrite !filter_app, Hs1, Hs2, Hs3. cbn [app].
    unfold Food101Run.loop. rewrite Hepochs. fold args' m o s rounds.
    assert (Ho : dir_exists (path2weight args') (Food101Run.out_dirs args fs)
                 = true)
      by (unfold args'; rewrite Hout; apply out_dirs_exists).
    destruct (food101_loop_total args' env m o s
                (Food101Run.train_loader args env)
                (Food101Run.val_loader args env) rounds
                (Food101Run.initial args env)
                (Food101Run.out_dirs args fs) Hw Ho) as (st' & Hret & _).
    rewrite Hret. cbn [finish closing filter is_save].
    rewrite app_nil_r. split; [reflexivity|].
    apply saves_of_loop; assumption. }
  destruct Hrun as [Hret Hwrites].
  split; [exact Hret|]. split; [exact Hwrites|].
  intros e b. rewrite <- improvements_In.
  rewrite <- (bundle_among_writes args' m o s e b), <- Hwrites.
  rewrite filter_In. unfold bundle_write. cbn [fst snd is_save].
  intuition.
Qed.

Lemma checkpoint_on_improvement_witness :
  outcome (Food101.main Sample.args Sample.env []) = Ret tt /\
  filter is_save (log (Food101.main Sample.args Sample.env []))
  = [TorchSave (Food101.weight_name Sample.args) (StateDict Net);
     TorchSave (Food101.checkpoint_name Sample.args)
               (Bundle Net SGD (StepLR 1) 1 50 Sample.args)].
Proof.
  destruct (checkpoint_on_improvement Sample.args Sample.env [])
    as (Hret & Hwrites & _).
  - reflexivity.
  - reflexivity.
  - split; [discriminate | reflexivity].
  - split; [reflexivity|]. split; discriminate.
  - discriminate.
  - discriminate.
  - reflexivity.
  - cbv zeta in Hret, Hwrites. split; [exact Hret|].
    rewrite Hwrites. reflexivity.
Defined.

(** * Further properties of the three programs *)

(** ** Ranges *)

Lemma range_nil (lo hi : Z) : hi <= lo -> Py.range lo hi = [].
Proof.
  intros H. unfold Py.range.
  replace (Z.to_nat (hi - lo)) with 0%nat by lia. reflexivity.
Qed.

Lemma range_cons (lo hi : Z) :
  lo < hi -> Py.range lo hi = lo :: Py.range (lo + 1) hi.
Proof.
  intros H. unfold Py.range.
  replace (Z.to_nat (hi - lo)) with (S (Z.to_nat (hi - (lo + 1)))) by lia.
  cbn [seq map]. rewrite <- seq_shift, map_map. f_equal.
  - lia.
  - apply map_ext. intros a. lia.
Qed.

Lemma range_counted (lo hi : Z) :
  Py.range lo hi = Py.range lo (lo + Z.of_nat (Z.to_nat (hi - lo))).
Proof.
  unfold Py.range. do 2 f_equal. lia.
Qed.

(** ** The weight directory *)


(** ** What the loops log *)

Lemma anime_loop_events env m tl vl (P : event -> Prop) :
  (forall e it bs, P (TrainPass e it bs)) ->
  (forall it bs, P (ValidatePass it bs)) ->
  P SchedulerStep ->
  P (TorchSave Anime.saved_weight (StateDict m)) ->
  forall xs s fs,
    Forall P (log (for_each xs (Anime.epoch_body env m tl vl) s fs)).
Proof.
  intros Ht Hv Hs Hw. apply for_each_Forall. intros x s fs.
  rewrite anime_body_run. cbv zeta. unfold passes.
  destruct (_ >? _); [destruct (dir_exists _ _)|]; events.
Qed.

Lemma food101_loop_events args env m o s tl vl (P : event -> Prop) :
  (forall e it bs, P (TrainPass e it bs)) ->
  (forall it bs, P (ValidatePass it bs)) ->
  P SchedulerStep ->
  P (TorchSave (Food101.weight_name args) (StateDict m)) ->
  (forall e b,
     P (TorchSave (Food101.checkpoint_name args) (Bundle m o s e b args))) ->
  forall xs st fs,
    Forall P
      (log (for_each xs (Food101.epoch_body args env m o s tl vl) st fs)).
Proof.
  intros Ht Hv Hs Hw Hb. apply for_each_Forall. intros x st fs.
  rewrite food101_body_run. cbv zeta. unfold passes.
  destruct (_ >? _);
    [destruct (dir_exists _ _); [destruct (dir_exists _ _)|]|]; events.
Qed.

Lemma distributed_loop_events args env m tl vl (P : event -> Prop) :
  (forall e it bs, P (TrainPass e it bs)) ->
  (forall it bs, P (ValidatePass it bs)) ->
  (forall e, P (SetEpoch e)) ->
  P SchedulerStep ->
  P (TorchSave Distributed.saved_weight (StateDict m)) ->
  forall xs s fs,
    Forall P (log (for_each xs (Distributed.epoch_body args env m tl vl) s fs)).
Proof.
  intros Ht Hv He Hs Hw. apply for_each_Forall. intros x s fs.
  rewrite distributed_body_run. cbv zeta. unfold passes.
  destruct (_ && _); [destruct (dir_exists _ _)|]; events.
Qed.

(** ** Closing the summary writer *)

(** X3.  In each of the three programs [writer.close()] is the last call of a
    training run that ends normally and is made exactly once there; a
    run in evaluate-only mode, and a run that raises, never closes the
    writer. *)
Theorem writer_closed_last (args : Args) (env : Env) (fs : FS) :
  closes_writer_last (evaluate args) (Anime.main args env fs) /\
  closes_writer_last (evaluate args) (Distributed.main args env fs) /\
  closes_writer_last (evaluate args) (Food101.main args env fs).
Proof.
  unfold closes_writer_last.
  rewrite anime_main_run, distributed_main_run, food101_main_run.
  destruct (apex args && negb (amp_available env));
    [repeat split; reflexivity|].
  destruct (evaluate args).
  - destruct (readable env (resume args)),
      (readable env (path_str (Food101.weight_name args)));
      cbn [outcome log fst snd]; repeat split; apply count_none;
      unfold AnimeRun.setup, DistributedRun.setup, DistributedRun.joining,
        Food101Run.setup, Food101Run.out_log; events.
  - split; [|split]; cbn [outcome log fst snd].
    + assert (Hbefore :
                Forall (fun ev => is_writer_close ev = false)
                       (AnimeRun.setup args fs ++ AnimeRun.wrapping args env
                        ++ log (AnimeRun.loop args env fs))).
      { unfold AnimeRun.setup, AnimeRun.wrapping. events.
        apply anime_loop_events; reflexivity. }
      destruct (outcome (AnimeRun.loop args env fs)); cbn [finish closing].
      * eexists. split; [|apply count_none; exact Hbefore].
        rewrite <- !app_assoc. reflexivity.
      * rewrite app_nil_r. apply count_none. exact Hbefore.
    + assert (Hbefore :
                Forall (fun ev => is_writer_close ev = false)
                       (DistributedRun.setup args env fs
                        ++ [NewScheduler
                              (MultiStepLR
                                 (Py.int_half (epochs args))
                                 (Py.int_three_quarters (epochs args)))]
                        ++ log (DistributedRun.loop args env fs))).
      { unfold DistributedRun.setup, DistributedRun.joining. events.
        apply distributed_loop_events; reflexivity. }
      destruct (outcome (DistributedRun.loop args env fs));
        cbn [finish closing].
      * eexists. split; [|apply count_none; exact Hbefore].
        rewrite <- !app_assoc. reflexivity.
      * rewrite app_nil_r. apply count_none. exact Hbefore.
    + destruct (Food101Run.resumable args env); cbn [outcome log fst snd];
        [|apply count_none;
          unfold Food101Run.setup, Food101Run.out_log, Food101Run.wrapping;
          events].
      assert (Hbefore :
                Forall (fun ev => is_writer_close ev = false)
                       (Food101Run.setup args fs
                        ++ Food101Run.wrapping args env
                        ++ Food101Run.resuming args
                        ++ log (Food101Run.loop args env fs))).
      { unfold Food101Run.setup, Food101Run.out_log, Food101Run.wrapping,
          Food101Run.resuming.
        events. apply food101_loop_events; reflexivity. }
      destruct (outcome (Food101Run.loop args env fs)); cbn [finish closing].
      * eexists. split; [|apply count_none; exact Hbefore].
        rewrite <- !app_assoc. reflexivity.
      * rewrite app_nil_r. apply count_none. exact Hbefore.
Qed.

(** ** What is saved *)

(** X4.  Whatever a run of the Anime or of the Food101 program saves, best
    weights or resume bundle, holds the state of the module under the
    [DataParallel] wrapper, with one GPU or several, with or without
    mixed precision. *)
Theorem data_parallel_saves_unwrapped (args : Args) (env : Env) (fs : FS) :
  Forall saves_unwrapped (log (Anime.main args env fs)) /\
  Forall saves_unwrapped (log (Food101.main args env fs)).
Proof.
  assert (Hm : is_unwrapped (if apex args then Amp Net else Net) = true)
    by (destruct (apex args); reflexivity).
  rewrite anime_main_run, food101_main_run.
  destruct (apex args && negb (amp_available env)); [split; events|].
  destruct (evaluate args).
  - destruct (readable env (resume args)),
      (readable env (path_str (Food101.weight_name args)));
      cbn [log snd]; split;
      unfold AnimeRun.setup, Food101Run.setup, Food101Run.out_log; events.
  - split; cbn [log snd].
    + unfold AnimeRun.setup, AnimeRun.wrapping. events.
      apply anime_loop_events; cbn; auto.
    + destruct (Food101Run.resumable args env); cbn [log snd];
        unfold Food101Run.setup, Food101Run.out_log, Food101Run.wrapping,
          Food101Run.resuming;
        events.
      apply food101_loop_events; cbn; auto.
Qed.

(** ** The best weights and the resume bundle *)

Section Forerunners.
Variable before : event -> option event.

Lemma preceded_none (l : list event) :
  Forall (fun ev => before ev = None) l -> preceded before l.
Proof.
  intros Hall l1 ev l2 pre -> Hb.
  apply Forall_app in Hall. destruct Hall as [_ Hall].
  inversion Hall as [|? ? Hhead _]. congruence.
Qed.

Lemma preceded_app (l l' : list event) :
  preceded before l -> preceded before l' -> preceded before (l ++ l').
Proof.
  intros Hl Hl' l1 ev l2 pre Heq Hb.
  apply app_eq_app in Heq. destruct Heq as (mid & [[-> Hr] | [-> Hr]]).
  - destruct mid as [|x mid].
    + cbn in Hr. symmetry in Hr.
      destruct (Hl' [] ev l2 pre Hr Hb) as (l0 & Hnil).
      destruct l0; discriminate Hnil.
    + cbn in Hr. injection Hr as <- ->.
      exact (Hl l1 ev mid pre eq_refl Hb).
  - destruct (Hl' mid ev l2 pre Hr Hb) as (l0 & ->).
    exists (l ++ l0). apply app_assoc.
Qed.

Lemma preceded_pair (pre ev : event) :
  before pre = None -> before ev = Some pre -> preceded before [pre; ev].
Proof.
  intros Hpre Hev l1 ev' l2 pre' Heq Hb.
  destruct l1 as [|x [|y l1]]; cbn in Heq.
  - injection Heq as <- _. congruence.
  - injection Heq as <- <- _. exists []. cbn. congruence.
  - injection Heq as _ _ Heq. destruct l1; discriminate Heq.
Qed.
End Forerunners.

Lemma food101_loop_paired args env m o s tl vl :
  forall es st fs,
    let run := for_each es (Food101.epoch_body args env m o s tl vl) st fs in
    preceded weights_before_bundle (log run) /\
    (count is_weights_save (log run) = count is_bundle_save (log run) \/
     count is_weights_save (log run) = S (count is_bundle_save (log run)) /\
     exists e, outcome run = Raise e).
Proof.
  assert (Hpasses : forall e it,
             Forall (fun ev => weights_before_bundle ev = None)
                    (passes tl vl e it))
    by (intros; unfold passes; events).
  induction es as [|e es IH]; intros st fs; cbv zeta.
  - split; [apply preceded_none; constructor | left; reflexivity].
  - rewrite for_each_cons, food101_body_run. cbv zeta.
    destruct (_ >? _);
      [destruct (dir_exists _ _); [destruct (dir_exists _ _)|]|];
      cbn [outcome log fst snd].
    + match goal with
      | |- context [for_each es ?b ?s' ?f] =>
          destruct (IH s' f) as [Hp Hc]
      end.
      cbv zeta in Hp, Hc. split.
      * repeat apply preceded_app; try exact Hp.
        -- apply preceded_none, Hpasses.
        -- apply preceded_pair; reflexivity.
      * rewrite !count_app. unfold passes. cbn [count filter length
          is_weights_save is_bundle_save Nat.add].
        destruct Hc as [Hc | (Hc & Hraise)]; [left | right; split];
          try exact Hraise; unfold count in *; lia.
    + split.
      * apply preceded_app; apply preceded_none; [apply Hpasses | events].
      * right. split; [reflexivity | eexists; reflexivity].
    + split; [apply preceded_none, Hpasses | left; reflexivity].
    + match goal with
      | |- context [for_each es ?b ?s' ?f] =>
          destruct (IH s' f) as [Hp Hc]
      end.
      cbv zeta in Hp, Hc. split.
      * apply preceded_app; [apply preceded_none, Hpasses | exact Hp].
      * rewrite !count_app. unfold passes. cbn [count filter length
          is_weights_save is_bundle_save Nat.add].
        exact Hc.
Qed.

(** X5.  The Food101 program writes the best weights and the resume
    bundle in pairs.  In every run, each write of a bundle comes right
    after the write of the state of the same model to the best-weights
    file; there is at most one write of the weights that no bundle
    follows; and in a run that ends normally there is none. *)
Theorem weights_and_bundle_paired (args : Args) (env : Env) (fs : FS) :
  writes_paired (Food101.main args env fs).
Proof.
  assert (Hframe :
            forall l, Forall (fun ev => is_save ev = false) l ->
              preceded weights_before_bundle l /\
              count is_weights_save l = 0%nat /\
              count is_bundle_save l = 0%nat).
  { intros l Hl. split; [|split].
    - apply preceded_none. eapply Forall_impl; [|exact Hl].
      intros [] H; try reflexivity. discriminate H.
    - apply count_none. eapply Forall_impl; [|exact Hl].
      intros [] H; try reflexivity. discriminate H.
    - apply count_none. eapply Forall_impl; [|exact Hl].
      intros [] H; try reflexivity. discriminate H. }
  assert (Hquiet :
            forall (r : result unit) (d : FS) (l : list event),
              Forall (fun ev => is_save ev = false) l ->
              writes_paired (r, d, l)).
  { intros r d l Hl. destruct (Hframe l Hl) as (Hp & Hw & Hb).
    unfold writes_paired. cbn [outcome log fst snd].
    rewrite Hw, Hb. split; [exact Hp|]. split; [lia | reflexivity]. }
  rewrite food101_main_run.
  destruct (apex args && negb (amp_available env));
    [apply Hquiet; events|].
  destruct (evaluate args);
    [destruct (readable env _); apply Hquiet;
     unfold Food101Run.setup, Food101Run.out_log; events|].
  destruct (Food101Run.resumable args env);
    [|apply Hquiet;
      unfold Food101Run.setup, Food101Run.out_log, Food101Run.wrapping;
      events].
  destruct (Hframe (Food101Run.setup args fs)) as (Hp1 & Hw1 & Hb1);
    [unfold Food101Run.setup, Food101Run.out_log; events|].
  destruct (Hframe (Food101Run.wrapping args env)) as (Hp2 & Hw2 & Hb2);
    [unfold Food101Run.wrapping; events|].
  destruct (Hframe (Food101Run.resuming args)) as (Hp3 & Hw3 & Hb3);
    [unfold Food101Run.resuming; events|].
  destruct (Hframe (closing (outcome (Food101Run.loop args env fs))))
    as (Hp4 & Hw4 & Hb4); [events|].
  destruct (food101_loop_paired
              (Food101Run.resumed_args args env) env
              (Food101Run.model args) (Food101Run.opt args)
              (Food101Run.sched args)
              (Food101Run.train_loader args env)
              (Food101Run.val_loader args env)
              (Py.range (start_epoch (Food101Run.resumed_args args env))
                        (epochs (Food101Run.resumed_args args env) + 1))
              (Food101Run.initial args env)
              (Food101Run.out_dirs args fs)) as [Hp Hc].
  cbv zeta in Hp, Hc. fold (Food101Run.loop args env fs) in Hp, Hc.
  unfold writes_paired. cbn [outcome log fst snd].
  rewrite !count_app, Hw1, Hw2, Hw3, Hw4, Hb1, Hb2, Hb3, Hb4.
  cbn [Nat.add]. rewrite !Nat.add_0_r.
  split; [|split].
  - apply preceded_app; [exact Hp1|]. apply preceded_app; [exact Hp2|].
    apply preceded_app; [exact Hp3|]. apply preceded_app; assumption.
  - destruct Hc as [Hc | (Hc & _)]; lia.
  - intros Hret. destruct Hc as [Hc | (_ & e & Hraise)]; [exact Hc|].
    rewrite Hraise in Hret. discriminate Hret.
Qed.

(** ** Mixed precision in evaluate-only mode *)

(** X6.  In evaluate-only mode the Anime and the Food101 program never call
    [amp.initialize], whether mixed precision is requested or not: they
    validate the plain network.  The Distributed program, once it has
    its directory, samplers and data loaders, patches the model first:
    it calls [amp.initialize] once when mixed precision is requested and
    not at all otherwise. *)
Theorem evaluate_only_precision (args : Args) (env : Env) (fs : FS) :
  evaluate args = true ->
  apex args && negb (amp_available env) = false ->
  count is_amp_initialize (log (Anime.main args env fs)) = 0%nat /\
  count is_amp_initialize (log (Food101.main args env fs)) = 0%nat /\
  (distributed_start_accepted args env fs ->
   count is_amp_initialize (log (Distributed.main args env fs))
   = (if apex args then 1 else 0)%nat).
Proof.
  intros Hev Hgate.
  rewrite anime_main_run, food101_main_run, distributed_main_run.
  rewrite Hev, Hgate. split; [|split].
  - apply count_none.
    destruct (readable env _); cbn [log snd]; unfold AnimeRun.setup; events.
  - apply count_none.
    destruct (readable env _); cbn [log snd];
      unfold Food101Run.setup, Food101Run.out_log; events.
  - intros _.
    destruct (readable env _); cbn [log snd];
      unfold DistributedRun.setup, DistributedRun.joining,
        DistributedRun.configured, DistributedRun.initialised, weight_log;
      destruct (dir_exists "weight" fs), (host env), (apex args);
      reflexivity.
Qed.

(** Mixed precision requested where apex is installed. *)
Lemma evaluate_only_precision_witness :
  let args := Sample.with_evaluate (Sample.with_apex Sample.args) in
  count is_amp_initialize
    (log (Anime.main args Sample.env_with_amp ["weight"%string])) = 0%nat /\
  count is_amp_initialize
    (log (Distributed.main args Sample.env_with_amp ["weight"%string]))
  = 1%nat.
Proof.
  cbv zeta.
  destruct (evaluate_only_precision
              (Sample.with_evaluate (Sample.with_apex Sample.args))
              Sample.env_with_amp ["weight"%string]) as (Ha & _ & Hd);
    [reflexivity | reflexivity |].
  split; [exact Ha|]. apply Hd.
  split; [exact I|]. split; [cbn; lia|].
  split; [reflexivity|]. split; discriminate.
Defined.

(** ** The learning-rate milestones *)

Lemma milestones_floor (n : Z) :
  0 <= n ->
  Py.int_half n = n / 2 /\ Py.int_three_quarters n = 3 * n / 4.
Proof.
  intros Hn. unfold Py.int_half, Py.int_three_quarters.
  rewrite !Z.quot_div_nonneg by lia. split; reflexivity.
Qed.

(** X7.  With an epoch count that is not negative and is below 2^51,
    where the float products are exact, a training run of the Anime or
    of the Distributed program that gets its directory, samplers and
    data loaders builds its scheduler with the milestones [epochs / 2]
    and [3 * epochs / 4], rounded down.  From 3 epochs on they are two different epochs of the
    run, the first at least 1 and the second before the last epoch; with
    0, 1 or 2 epochs they are the same epoch. *)
Theorem lr_milestones (args : Args) (env : Env) (fs : FS) :
  apex args && negb (amp_available env) = false ->
  evaluate args = false ->
  0 <= epochs args < 2 ^ 51 ->
  let m1 := epochs args / 2 in
  let m2 := 3 * epochs args / 4 in
  (loaders_accepted args env ->
   In (NewScheduler (MultiStepLR m1 m2)) (log (Anime.main args env fs))) /\
  (distributed_start_accepted args env fs ->
   In (NewScheduler (MultiStepLR m1 m2))
      (log (Distributed.main args env fs))) /\
  (3 <= epochs args -> 1 <= m1 < m2 /\ m2 < epochs args) /\
  (epochs args <= 2 -> m1 = m2).
Proof.
  intros Hgate Hev He. cbv zeta.
  destruct (milestones_floor (epochs args)) as [<- <-]; [lia|].
  destruct (milestones_floor (epochs args)) as [H1 H2]; [lia|].
  split; [|split; [|split]].
  - intros _. rewrite anime_main_run, Hgate, Hev. cbn [log snd].
    apply in_or_app. right. apply in_or_app. left.
    unfold AnimeRun.wrapping.
    apply in_or_app. right. apply in_or_app. right. left. reflexivity.
  - intros _. rewrite distributed_main_run, Hgate, Hev. cbn [log snd].
    apply in_or_app. right. apply in_or_app. left. left. reflexivity.
  - intros Hmany. rewrite H1, H2.
    pose proof (Z.div_mod (epochs args) 2 ltac:(lia)).
    pose proof (Z.mod_pos_bound (epochs args) 2 ltac:(lia)).
    pose proof (Z.div_mod (3 * epochs args) 4 ltac:(lia)).
    pose proof (Z.mod_pos_bound (3 * epochs args) 4 ltac:(lia)).
    lia.
  - intros Hfew. rewrite H1, H2.
    pose proof (Z.div_mod (epochs args) 2 ltac:(lia)).
    pose proof (Z.mod_pos_bound (epochs args) 2 ltac:(lia)).
    pose proof (Z.div_mod (3 * epochs args) 4 ltac:(lia)).
    pose proof (Z.mod_pos_bound (3 * epochs args) 4 ltac:(lia)).
    lia.
Qed.

Lemma lr_milestones_witness :
  In (NewScheduler (MultiStepLR 2 3))
     (log (Anime.main (Sample.with_restart 4 Sample.args) Sample.env [])) /\
  In (NewScheduler (MultiStepLR 2 3))
     (log (Distributed.main (Sample.with_restart 4 Sample.args)
             Sample.env [])).
Proof.
  destruct (lr_milestones (Sample.with_restart 4 Sample.args) Sample.env [])
    as (Ha & Hd & _); [reflexivity | reflexivity | cbn; lia |].
  cbv zeta in Ha, Hd.
  split; [apply Ha | apply Hd; split; [exact I|]; split; [cbn; lia|]];
    (split; [reflexivity|]; split; discriminate).
Defined.

(** ** The rounds of a run and its iteration counter *)

Lemma passes_kept tl vl e it :
  filter is_pass_call (passes tl vl e it) = passes tl vl e it.
Proof. reflexivity. Qed.

Lemma anime_loop_passes env m tl vl :
  forall (n : nat) (lo : Z) st fs,
    dir_exists "weight" fs = true ->
    filter is_pass_call
      (log (for_each (Py.range lo (lo + Z.of_nat n))
              (Anime.epoch_body env m tl vl) st fs))
    = flat_map
        (fun e => passes tl vl e
                    (Anime.iteration st
                     + (e - lo) * Z.of_nat (Loader.len tl)))
        (Py.range lo (lo + Z.of_nat n)).
Proof.
  induction n as [|n IH]; intros lo st fs Hdir.
  - rewrite range_nil by lia. reflexivity.
  - replace (lo + Z.of_nat (S n)) with (lo + 1 + Z.of_nat n) by lia.
    rewrite (range_cons lo) by lia.
    rewrite for_each_cons, anime_body_run. cbv zeta. rewrite Hdir.
    cbn [flat_map].
    replace (Anime.iteration st + (lo - lo) * Z.of_nat (Loader.len tl))
      with (Anime.iteration st) by lia.
    destruct (_ >? _); cbn [log snd]; rewrite !filter_app;
      rewrite IH by exact Hdir; cbn [Anime.iteration];
      rewrite passes_kept; cbn [filter is_pass_call app]; f_equal;
      apply flat_map_ext; intros e; f_equal; ring.
Qed.

Lemma distributed_loop_passes args env m tl vl :
  forall (n : nat) (lo : Z) st fs,
    dir_exists "weight" fs = true ->
    filter is_pass_call
      (log (for_each (Py.range lo (lo + Z.of_nat n))
              (Distributed.epoch_body args env m tl vl) st fs))
    = flat_map
        (fun e => passes tl vl e
                    (Distributed.iteration st
                     + (e - lo) * Z.of_nat (Loader.len tl)))
        (Py.range lo (lo + Z.of_nat n)).
Proof.
  induction n as [|n IH]; intros lo st fs Hdir.
  - rewrite range_nil by lia. reflexivity.
  - replace (lo + Z.of_nat (S n)) with (lo + 1 + Z.of_nat n) by lia.
    rewrite (range_cons lo) by lia.
    rewrite for_each_cons, distributed_body_run. cbv zeta. rewrite Hdir.
    cbn [flat_map].
    replace (Distributed.iteration st
             + (lo - lo) * Z.of_nat (Loader.len tl))
      with (Distributed.iteration st) by lia.
    destruct (_ && _), (distributed args); cbn [log snd];
      rewrite !filter_app;
      rewrite IH by exact Hdir; cbn [Distributed.iteration];
      rewrite passes_kept; cbn [filter is_pass_call app]; f_equal;
      apply flat_map_ext; intros e; f_equal; ring.
Qed.

Lemma food101_loop_passes args env m o s tl vl :
  forall (n : nat) (lo : Z) st fs,
    dir_exists "weight" fs = true ->
    dir_exists (path2weight args) fs = true ->
    filter is_pass_call
      (log (for_each (Py.range lo (lo + Z.of_nat n))
              (Food101.epoch_body args env m o s tl vl) st fs))
    = flat_map
        (fun e => passes tl vl e
                    (Food101.iteration st
                     + (e - lo) * Z.of_nat (Loader.len tl)))
        (Py.range lo (lo + Z.of_nat n)).
Proof.
  induction n as [|n IH]; intros lo st fs Hdir Hout.
  - rewrite range_nil by lia. reflexivity.
  - replace (lo + Z.of_nat (S n)) with (lo + 1 + Z.of_nat n) by lia.
    rewrite (range_cons lo) by lia.
    rewrite for_each_cons, food101_body_run. cbv zeta. rewrite Hdir, Hout.
    cbn [flat_map].
    replace (Food101.iteration st + (lo - lo) * Z.of_nat (Loader.len tl))
      with (Food101.iteration st) by lia.
    destruct (_ >? _); cbn [log snd]; rewrite !filter_app;
      rewrite IH by assumption; cbn [Food101.iteration];
      rewrite passes_kept; cbn [filter is_pass_call app]; f_equal;
      apply flat_map_ext; intros e; f_equal; ring.
Qed.

(** X8.  A training run of the Anime or of the Distributed program that
    gets its data loaders (and, in a process group, has a rank of the
    group and finds ['weight'] in place) makes, for each epoch [e] from
    1 to [args.epochs] in turn and for no other, one training pass,
    one validation pass and one scheduler step, in that order; with
    [len] the length of the training loader, the training pass of epoch
    [e] is given the iteration [(e - 1) * len] and its validation pass
    [e * len]. *)
Theorem fresh_run_rounds (args : Args) (env : Env) (fs : FS) :
  apex args && negb (amp_available env) = false ->
  evaluate args = false ->
  (loaders_accepted args env ->
   filter is_pass_call (log (Anime.main args env fs))
   = flat_map
       (fun e =>
          passes (AnimeRun.train_loader args env)
                 (AnimeRun.val_loader args env) e
                 ((e - 1)
                  * Z.of_nat (Loader.len (AnimeRun.train_loader args env))))
       (Py.range 1 (epochs args + 1))) /\
  (distributed_start_accepted args env fs ->
   filter is_pass_call (log (Distributed.main args env fs))
   = flat_map
       (fun e =>
          passes (DistributedRun.train_loader args env)
                 (DistributedRun.val_loader args env) e
                 ((e - 1)
                  * Z.of_nat
                      (Loader.len (DistributedRun.train_loader args env))))
       (Py.range 1 (epochs args + 1))).
Proof.
  intros Hgate Hev.
  rewrite anime_main_run, distributed_main_run, Hgate, Hev.
  cbn [log snd]. rewrite !filter_app. split.
  - intros _.
    rewrite (filter_none _ (AnimeRun.setup args fs))
      by (unfold AnimeRun.setup; events).
    rewrite (filter_none _ (AnimeRun.wrapping args env))
      by (unfold AnimeRun.wrapping; events).
    rewrite (filter_none _ (closing _)) by events.
    cbn [app]. rewrite app_nil_r.
    unfold AnimeRun.loop. rewrite (range_counted 1 (epochs args + 1)).
    rewrite anime_loop_passes by apply weight_dirs_exists.
    cbn [Anime.iteration]. apply flat_map_ext. intros e. f_equal; ring.
  - intros _.
    rewrite (filter_none _ (DistributedRun.setup args env fs))
      by (unfold DistributedRun.setup, DistributedRun.joining; events).
    rewrite (filter_none _ (closing _)) by events.
    cbn [filter is_pass_call app]. rewrite app_nil_r.
    unfold DistributedRun.loop. rewrite (range_counted 1 (epochs args + 1)).
    rewrite distributed_loop_passes by apply weight_dirs_exists.
    cbn [Distributed.iteration]. apply flat_map_ext. intros e.
    f_equal; ring.
Qed.

(** Two epochs by one process, and by rank 1 of a group of 2, which is
    handed three of the five samples. *)
Lemma fresh_run_rounds_witness :
  filter is_pass_call (log (Anime.main Sample.args Sample.env []))
  = [TrainPass 1 0 [2; 2]%nat; ValidatePass 2 [2; 2; 1]%nat; SchedulerStep;
     TrainPass 2 2 [2; 2]%nat; ValidatePass 4 [2; 2; 1]%nat; SchedulerStep] /\
  filter is_pass_call
    (log (Distributed.main (set_batch_size 4 Sample.args)
            (Distributed.rank_env (fun _ => Sample.env) 2 2 1)
            ["weight"%string]))
  = [TrainPass 1 0 [2]%nat; ValidatePass 1 [2; 1]%nat; SchedulerStep;
     TrainPass 2 1 [2]%nat; ValidatePass 2 [2; 1]%nat; SchedulerStep].
Proof.
  destruct (fresh_run_rounds Sample.args Sample.env [])
    as [Hanime _]; [reflexivity | reflexivity |].
  destruct (fresh_run_rounds (set_batch_size 4 Sample.args)
              (Distributed.rank_env (fun _ => Sample.env) 2 2 1)
              ["weight"%string])
    as [_ Hdist]; [reflexivity | reflexivity |].
  split.
  - rewrite Hanime; [reflexivity|].
    split; [reflexivity|]. split; discriminate.
  - rewrite Hdist; [reflexivity|].
    split; [split; [cbn; lia | reflexivity]|]. split; [cbn; lia|].
    split; [reflexivity|]. split; discriminate.
Defined.

(** X9.  A training run of the Food101 program that gets its output
    directory, data loaders and scheduler, whose checkpoint file is in
    place where it resumes and that finds ['weight'] beside its output
    directory makes one training pass, one validation pass and one
    scheduler step for each epoch from
    its start epoch to [args.epochs] in turn, and for no other: from
    [args.start_epoch] with the counter at 0, or, resumed, from the
    epoch after the checkpoint's with the counter at
    [args.epochs * len]; a run resumed from a checkpoint of the last
    epoch or a later one makes none. *)
Theorem food101_run_rounds (args : Args) (env : Env) (fs : FS) :
  apex args && negb (amp_available env) = false ->
  evaluate args = false ->
  names_accepted args ->
  loaders_accepted args env ->
  lr_step_size args <> 0 ->
  (restart args = true ->
   readable env (path_str (Food101.checkpoint_name args)) = true) ->
  dir_exists "weight" (Food101Run.out_dirs args fs) = true ->
  let tl := loader_of (train_set env) (batch_size args) true in
  let vl := loader_of (val_set env) (batch_size args) false in
  let start :=
    if restart args then ck_epoch (saved_checkpoint env) + 1
    else start_epoch args in
  let iteration0 :=
    if restart args then epochs args * Z.of_nat (Loader.len tl) else 0 in
  filter is_pass_call (log (Food101.main args env fs))
  = flat_map
      (fun e =>
         passes tl vl e (iteration0 + (e - start) * Z.of_nat (Loader.len tl)))
      (Py.range start (epochs args + 1)) /\
  (restart args = true ->
   epochs args <= ck_epoch (saved_checkpoint env) ->
   filter is_pass_call (log (Food101.main args env fs)) = []).
Proof.
  intros Hgate Hev _ _ _ Hfile Hdir. cbv zeta.
  assert (Hrounds :
    filter is_pass_call (log (Food101.main args env fs))
    = flat_map
        (fun e =>
           passes (loader_of (train_set env) (batch_size args) true)
                  (loader_of (val_set env) (batch_size args) false) e
                  ((if restart args
                    then epochs args
                         * Z.of_nat
                             (Loader.len
                                (loader_of (train_set env)
                                           (batch_size args) true))
                    else 0)
                   + (e - (if restart args
                           then ck_epoch (saved_checkpoint env) + 1
                           else start_epoch args))
                     * Z.of_nat
                         (Loader.len
                            (loader_of (train_set env)
                                       (batch_size args) true))))
        (Py.range (if restart args
                   then ck_epoch (saved_checkpoint env) + 1
                   else start_epoch args)
                  (epochs args + 1))).
  { rewrite food101_main_run, Hgate, Hev, (resumable_run args env Hfile).
    cbn [log snd]. rewrite !filter_app.
    rewrite (filter_none _ (Food101Run.setup args fs))
      by (unfold Food101Run.setup, Food101Run.out_log; events).
    rewrite (filter_none _ (Food101Run.wrapping args env))
      by (unfold Food101Run.wrapping; events).
    rewrite (filter_none _ (Food101Run.resuming args))
      by (unfold Food101Run.resuming; events).
    rewrite (filter_none _ (closing _)) by events.
    cbn [app]. rewrite app_nil_r.
    unfold Food101Run.loop, Food101Run.resumed_args, Food101Run.initial,
      Food101Run.train_loader, Food101Run.val_loader.
    destruct (restart args);
      unfold set_start_epoch; cbn [start_epoch epochs];
      match goal with
      | |- context [Py.range ?lo ?hi] => rewrite (range_counted lo hi)
      end;
      (rewrite food101_loop_passes;
       [ reflexivity
       | exact Hdir
       | cbn [path2weight]; apply out_dirs_exists ]). }
  split; [exact Hrounds|].
  intros Hrestart Hdone. rewrite Hrounds, Hrestart.
  rewrite range_nil by lia. reflexivity.
Qed.

(** Four epochs in all, resumed from the checkpoint of epoch 3. *)
Lemma food101_run_rounds_witness :
  filter is_pass_call
    (log (Food101.main (Sample.with_restart 4 Sample.args) Sample.env
            ["weight"%string]))
  = [TrainPass 4 8 [2; 2]%nat; ValidatePass 10 [2; 2; 1]%nat; SchedulerStep].
Proof.
  destruct (food101_run_rounds (Sample.with_restart 4 Sample.args)
              Sample.env ["weight"%string]) as [Hrounds _].
  - reflexivity.
  - reflexivity.
  - split; [discriminate | reflexivity].
  - split; [reflexivity|]. split; discriminate.
  - discriminate.
  - reflexivity.
  - reflexivity.
  - rewrite Hrounds. reflexivity.
Defined.

(** ** The best score of the Food101 loop *)

Lemma best_before_bounds (acc : Z -> Z) :
  forall es best,
    best <= best_before acc best es /\
    (forall e, In e es -> acc e <= best_before acc best es) /\
    (best_before acc best es = best \/
     exists e, In e es /\ best_before acc best es = acc e).
Proof.
  unfold best_before.
  induction es as [|x es IH]; intros best; cbn [fold_left].
  - split; [lia|]. split; [intros e []|]. left. reflexivity.
  - destruct (IH (Z.max best (acc x))) as (Hge & Hall & Hone).
    split; [lia|]. split.
    + intros e [<- | He]; [lia | apply Hall; exact He].
    + destruct Hone as [Heq | (e & He & Heq)].
      * destruct (Z.max_spec best (acc x)) as [[_ Hm] | [_ Hm]].
        -- right. exists x. split; [left; reflexivity|].
           rewrite Heq. exact Hm.
        -- left. rewrite Heq. exact Hm.
      * right. exists e. split; [right; exact He | exact Heq].
Qed.

(** X11.  Where both output directories exist, the epoch loop of the Food101
    program, from whatever state and over whatever epochs, ends with
    [best_acc] the maximum of the best score it started with and the
    validation accuracies of its epochs -- never below where it started
    -- and with the iteration counter advanced by the length of the
    training loader once per epoch. *)
Theorem food101_best_score_is_maximum
        (args : Args) (env : Env) (m : nnmodule) (o : optimizer)
        (s : scheduler) (tl vl : Loader.DataLoader nat)
        (es : list Z) (st : Food101.RunState) (fs : FS) :
  dir_exists "weight" fs = true ->
  dir_exists (path2weight args) fs = true ->
  exists st',
    outcome (for_each es (Food101.epoch_body args env m o s tl vl) st fs)
    = Ret st' /\
    Food101.best_acc st <= Food101.best_acc st' /\
    (forall e, In e es -> val_acc env e <= Food101.best_acc st') /\
    (Food101.best_acc st' = Food101.best_acc st \/
     exists e, In e es /\ Food101.best_acc st' = val_acc env e) /\
    Food101.iteration st'
    = Food101.iteration st
      + Z.of_nat (length es) * Z.of_nat (Loader.len tl).
Proof.
  intros Hw Ho.
  destruct (food101_loop_total args env m o s tl vl es st fs Hw Ho)
    as (st' & Hrun & _).
  exists st'. split; [exact Hrun|].
  pose proof (food101_best_acc_is_max args env m o s tl vl es st fs st' Hrun)
    as Hbest.
  fold (best_before (val_acc env) (Food101.best_acc st) es) in Hbest.
  destruct (best_before_bounds (val_acc env) es (Food101.best_acc st))
    as (Hge & Hall & Hone).
  rewrite <- Hbest in Hge, Hall, Hone.
  repeat (split; [assumption|]).
  clear Hbest Hge Hall Hone. revert st fs Hw Ho st' Hrun.
  induction es as [|e es IH]; intros st fs Hw Ho st' Hrun.
  - cbn in Hrun. injection Hrun as <-. cbn. lia.
  - rewrite for_each_cons, food101_body_run in Hrun. cbv zeta in Hrun.
    rewrite Hw, Ho in Hrun.
    destruct (_ >? _); cbn [outcome dirs_after fst snd] in Hrun;
      apply IH in Hrun; try assumption;
      rewrite Hrun; cbn [Food101.iteration length]; lia.
Qed.

Lemma food101_best_score_is_maximum_witness :
  exists st',
    outcome (for_each [1; 2]
               (Food101.epoch_body Sample.args Sample.env Net SGD (StepLR 1)
                  (loader_of (seq 0 5) 2 true) (loader_of (seq 0 5) 2 false))
               {| Food101.iteration := 0; Food101.best_acc := 0 |}
               ["weight"%string])
    = Ret st' /\
    Food101.best_acc st' = 50.
Proof.
  destruct (food101_best_score_is_maximum Sample.args Sample.env Net SGD
              (StepLR 1) (loader_of (seq 0 5) 2 true)
              (loader_of (seq 0 5) 2 false) [1; 2]
              {| Food101.iteration := 0; Food101.best_acc := 0 |}
              ["weight"%string] eq_refl eq_refl)
    as (st' & Hrun & _ & Hall & Hone & _).
  exists st'. split; [exact Hrun|].
  pose proof (Hall 1 (or_introl eq_refl)) as H1. cbn in H1.
  destruct Hone as [Heq | (e & [<- | [<- | []]] & Heq)];
    cbn in Heq; lia.
Defined.
